(** * A record-keeping HTTP service: model of [main.py] and its contract

    The service has two request handlers over one SQLite table:
    [create_test] (POST /tests) and [get_tests] (GET /tests).  The
    development below embeds the module shallowly:

    - Python values that reach the handlers (the decoded JSON body, query
      parameters, the process environment) are data of this file;
    - the handlers are computations in a small state-and-exception monad
      over a [world] holding the table, the request's connection and a
      journal of what the handler did (storage calls and log lines);
    - storage failures are an input: a [faults] plan says which sqlite3
      call fails, so that every [except] and [finally] path can be run
      (an error of sqlite3 other than the violated primary key, such as
      a locked file or a full disk, is a fault of the statement); a
      string that cannot be encoded as UTF-8 fails when it is bound;
    - the table [tests] exists: the schema set up by [initialise_db] is
      the type [row], with [test_id] as its key. The environment is the
      one left by [load_dotenv()];
    - [initialise_db] itself, run before the server accepts requests, is
      modelled in [Startup] over a database whose table may be absent. *)

From Stdlib Require Import String Ascii QArith.
From stdpp Require Import base option list gmap numbers.

#[local] Open Scope N_scope.
#[local] Set Warnings "-register-all".

(** ** Python strings and JSON values *)

(** A Python [str] is a sequence of code points. *)
Abbreviation pystr := (list N).

(** The code points of an ASCII literal of the source. *)
Definition lit (s : string) : pystr := N_of_ascii <$> list_ascii_of_string s.
Arguments lit s%_string : simpl never.

(** What [request.json()] can return. *)
Inductive json : Type :=
| JNull
| JBool (b : bool)
| JInt (n : Z)
| JFloat (x : Q)
| JStr (s : pystr)
| JArr (xs : list json)
| JObj (d : gmap pystr json).

(** Exceptions the module can meet. All derive from [Exception];
    [IntegrityError], [OperationalError] and [ProgrammingError] are
    sqlite3's. *)
Inductive exn : Type :=
| TypeError
| KeyError
| RuntimeError
| UnicodeEncodeError
| IntegrityError
| OperationalError
| ProgrammingError.

(** The result of running Python code: a value, or a raised exception. *)
Inductive outcome (A : Type) : Type :=
| Returns (a : A)
| Raises (e : exn).
Arguments Returns {A} a.
Arguments Raises {A} e.

#[global] Instance outcome_ret : MRet outcome := λ A a, Returns a.
#[global] Instance outcome_bind : MBind outcome := λ A B f m,
  match m with
  | Returns a => f a
  | Raises e => Raises e
  end.

Module Py.

(** [str.isspace] on one code point: the ASCII table of CPython
    (tab to carriage return, 0x1c to 0x1f, space) and the Unicode
    white space above it. *)
Definition isspace (c : N) : bool :=
  ((9 <=? c) && (c <=? 13)) || ((28 <=? c) && (c <=? 32))
  || (c =? 133) || (c =? 160) || (c =? 5760)
  || ((8192 <=? c) && (c <=? 8202))
  || (c =? 8232) || (c =? 8233) || (c =? 8239) || (c =? 8287)
  || (c =? 12288).

Fixpoint lstrip (s : pystr) : pystr :=
  match s with
  | [] => []
  | c :: t => if isspace c then lstrip t else s
  end.

Definition rstrip (s : pystr) : pystr := rev (lstrip (rev s)).

(** [s.strip()] *)
Definition strip (s : pystr) : pystr := rstrip (lstrip s).

Fixpoint startswith (p s : pystr) : bool :=
  match p, s with
  | [], _ => true
  | _ :: _, [] => false
  | a :: p', b :: s' => (a =? b) && startswith p' s'
  end.

(** [p in s] for two strings: substring search. *)
Fixpoint substring (p s : pystr) : bool :=
  startswith p s ||
  match s with
  | [] => false
  | _ :: s' => substring p s'
  end.

(** [x == f] for a JSON value [x] and a string [f]: only an equal string
    compares equal. *)
Definition eq_str (x : json) (f : pystr) : bool :=
  match x with
  | JStr s => bool_decide (s = f)
  | _ => false
  end.

(** [f in data]: key membership for a dict, element membership for a
    list, substring for a string; the other JSON values are not
    iterable. *)
Definition contains (data : json) (f : pystr) : outcome bool :=
  match data with
  | JObj d => Returns (bool_decide (is_Some (d !! f)))
  | JArr xs => Returns (existsb (λ x, eq_str x f) xs)
  | JStr s => Returns (substring f s)
  | JNull | JBool _ | JInt _ | JFloat _ => Raises TypeError
  end.

(** [data[f]] for a string [f]: defined for a dict only. *)
Definition getitem (data : json) (f : pystr) : outcome json :=
  match data with
  | JObj d =>
      match d !! f with
      | Some v => Returns v
      | None => Raises KeyError
      end
  | _ => Raises TypeError
  end.

(** [isinstance(v, str)] *)
Definition is_str (v : json) : bool :=
  match v with
  | JStr _ => true
  | _ => false
  end.

(** [v.strip()] once [v] is known to be a string. *)
Definition strip_of (v : json) : outcome pystr :=
  match v with
  | JStr s => Returns (strip s)
  | _ => Raises TypeError
  end.

(** Truth value of a string: empty is false. *)
Definition truthy (s : pystr) : bool :=
  match s with
  | [] => false
  | _ :: _ => true
  end.

(** Truth value of a string-or-[None]. *)
Definition truthy_opt (o : option pystr) : bool :=
  match o with
  | None => false
  | Some s => truthy s
  end.

(** A surrogate code point (U+D800 to U+DFFF). JSON can carry one on its
    own, written as the escape \ud800, and [json.loads] keeps it;
    UTF-8 has no encoding for it. *)
Definition is_surrogate (c : N) : bool := (55296 <=? c) && (c <=? 57343).

(** [s.encode("utf-8")] succeeds. *)
Definition encodable (s : pystr) : bool :=
  forallb (λ c, negb (is_surrogate c)) s.

(** [os.getenv(key, default)] on the process environment. *)
Definition getenv (environ : gmap pystr pystr) (key fallback : pystr) : pystr :=
  default fallback (environ !! key).

End Py.

(** ** Configuration (lines 12-14) *)

(** [DB_PATH = os.getenv("DATABASE_URL", "records.db")], followed by the
    start-up check [if not DB_PATH: raise RuntimeError(...)]. *)
Definition DB_PATH (environ : gmap pystr pystr) : outcome pystr :=
  let path := Py.getenv environ (lit "DATABASE_URL") (lit "records.db") in
  if negb (Py.truthy path) then Raises RuntimeError else Returns path.

(** ** Validation (lines 36-41) *)

Definition fields : list pystr :=
  [lit "test_id"; lit "patient_id"; lit "clinic_id"; lit "test_type"; lit "result"].

(** The condition of the loop body,
    [f not in data or not isinstance(data[f], str) or not data[f].strip()],
    with Python's left-to-right short-circuit evaluation. *)
Definition field_fails (data : json) (f : pystr) : outcome bool :=
  present ← Py.contains data f;
  if negb present then Returns true
  else
    v ← Py.getitem data f;
    if negb (Py.is_str v) then Returns true
    else
      v' ← Py.getitem data f;
      s ← Py.strip_of v';
      Returns (negb (Py.truthy s)).

(** [f"Invalid or missing field: {f}"] *)
Definition complaint (f : pystr) : pystr := lit "Invalid or missing field: " ++ f.
Arguments complaint f : simpl never.

Fixpoint validate_loop (data : json) (fs : list pystr) : outcome (option pystr) :=
  match fs with
  | [] => Returns None
  | f :: rest =>
      bad ← field_fails data f;
      if (bad : bool) then Returns (Some (complaint f))
      else validate_loop data rest
  end.

Definition validate_data (data : json) : outcome (option pystr) :=
  validate_loop data fields.

(** ** The table and the storage connection *)

(** One row of table [tests]; the projections are the column names. *)
Record row : Type := Row {
  test_id : pystr;
  patient_id : pystr;
  clinic_id : pystr;
  test_type : pystr;
  result : pystr;
  created_at : pystr
}.

(** A connection is in autocommit mode or inside a transaction that works
    on its own copy of the table. *)
Inductive txn : Type :=
| Autocommit
| Active (working : list row).

Inductive stmt : Type :=
| BEGIN
| INSERT (r : row)
| COMMIT
| ROLLBACK
| SELECT (cid : pystr).

(** What a storage call does besides its job: nothing, or fail; a failing
    statement may leave the transaction open or end it (SQLite rolls back
    by itself on some errors, such as a full disk). *)
Inductive fault : Type :=
| Healthy
| Failing (ends_txn : bool).

(** The failures the storage layer holds in store for one request. *)
Record faults : Type := Faults {
  on_connect : bool;
  on_begin : fault;
  on_insert : fault;
  on_commit : fault;
  on_rollback : fault;
  on_select : fault
}.

Definition fault_of (fs : faults) (s : stmt) : fault :=
  match s with
  | BEGIN => on_begin fs
  | INSERT _ => on_insert fs
  | COMMIT => on_commit fs
  | ROLLBACK => on_rollback fs
  | SELECT _ => on_select fs
  end.

Definition no_faults : faults := Faults false Healthy Healthy Healthy Healthy Healthy.

Inductive level : Type := INFO | WARNING | ERROR.

(** The payloads handed to the logger, one constructor per [event] of the
    source (the first one is the line logged for an undecodable body). *)
Inductive log_event : Type :=
| invalid_json (request_id : pystr)
| validation_failed (request_id reason : pystr)
| test_created (request_id : pystr) (tid : json)
| duplicate_test (request_id : pystr) (tid : json)
| internal_server_error (request_id : pystr) (error : exn)
| missing_clinic_id
| fetch_tests (cid : pystr) (count : nat)
| fetch_failed (cid : pystr) (error : exn).

(** What a handler does to the outside, in order. [Connected] is a
    successful [sqlite3.connect], [Executed] a statement handed to
    [cursor.execute] (whether it succeeds or not), [Closed] a
    [conn.close()]. *)
Inductive event : Type :=
| Connected
| Executed (s : stmt)
| Closed
| Logged (l : level) (e : log_event).

Record world : Type := World {
  tests : list row;          (* committed rows, in insertion order *)
  session : option txn;      (* the request's connection; None when closed *)
  plan : faults;             (* what storage will do *)
  journal : list event       (* oldest first *)
}.

Definition note (e : event) (w : world) : world :=
  World (tests w) (session w) (plan w) (journal w ++ [e]).

Definition set_session (s : option txn) (w : world) : world :=
  World (tests w) s (plan w) (journal w).

Definition set_tests (t : list row) (w : world) : world :=
  World t (session w) (plan w) (journal w).

(** Handlers: state passing with exceptions. *)
Definition M (A : Type) : Type := world → outcome A * world.

#[global] Instance M_ret : MRet M := λ A a w, (Returns a, w).
#[global] Instance M_bind : MBind M := λ A B f m w,
  match m w with
  | (Returns a, w') => f a w'
  | (Raises e, w') => (Raises e, w')
  end.

(** Pure Python code run inside a handler. *)
Definition lift {A} (o : outcome A) : M A := λ w, (o, w).

(** [try: body except Exception as e: handler(e)] *)
Definition try_except {A} (body : M A) (handler : exn → M A) : M A := λ w,
  match body w with
  | (Returns a, w') => (Returns a, w')
  | (Raises e, w') => handler e w'
  end.

(** [try: body finally: final]; [final] runs on every exit of [body], and
    an exception of [final] replaces the pending result. *)
Definition try_finally {A} (body : M A) (final : M unit) : M A := λ w,
  match body w with
  | (r, w') =>
      match final w' with
      | (Returns _, w'') => (r, w'')
      | (Raises e, w'') => (Raises e, w'')
      end
  end.

Definition log (l : level) (e : log_event) : M unit := λ w,
  (Returns (), note (Logged l e) w).

(** The rows that [SELECT * FROM tests WHERE clinic_id = ?] keeps: the
    column equals the parameter as a string, code point by code point. *)
Definition matching (cid : pystr) (rows : list row) : list row :=
  filter (λ r, clinic_id r = cid) rows.

Module Sqlite.

(** The rows a statement sees. *)
Definition view (t : txn) (w : world) : list row :=
  match t with
  | Autocommit => tests w
  | Active working => working
  end.

(** Writing through the connection: into the transaction's copy, or
    straight to the table in autocommit mode. *)
Definition write (t : txn) (rows : list row) (w : world) : world :=
  match t with
  | Autocommit => set_tests rows w
  | Active _ => set_session (Some (Active rows)) w
  end.

(** The primary key: is there a row with this [test_id]? *)
Definition has_key (k : pystr) (rows : list row) : bool :=
  existsb (λ r, bool_decide (test_id r = k)) rows.

(** [sqlite3.connect(DB_PATH, ...)] *)
Definition connect : M unit := λ w,
  if on_connect (plan w) then (Raises OperationalError, w)
  else (Returns (), note Connected (set_session (Some Autocommit) w)).

(** [conn.close()]: an open transaction is dropped with the connection. *)
Definition close : M unit := λ w,
  (Returns (), note Closed (set_session None w)).

(** A statement that meets no fault. *)
Definition run (s : stmt) (t : txn) (w : world) : outcome (list row) * world :=
  match s, t with
  | BEGIN, Autocommit => (Returns [], set_session (Some (Active (tests w))) w)
  | BEGIN, Active _ => (Raises OperationalError, w)
  | INSERT r, _ =>
      if has_key (test_id r) (view t w) then (Raises IntegrityError, w)
      else (Returns [], write t (view t w ++ [r]) w)
  | COMMIT, Active working =>
      (Returns [], set_session (Some Autocommit) (set_tests working w))
  | COMMIT, Autocommit => (Raises OperationalError, w)
  | ROLLBACK, Active _ => (Returns [], set_session (Some Autocommit) w)
  | ROLLBACK, Autocommit => (Raises OperationalError, w)
  | SELECT cid, _ => (Returns (matching cid (view t w)), w)
  end.

(** [cursor.execute(...)] followed, for a query, by [cursor.fetchall()]. *)
Definition execute (s : stmt) : M (list row) := λ w0,
  let w := note (Executed s) w0 in
  match session w with
  | None => (Raises ProgrammingError, w)
  | Some t =>
      match fault_of (plan w) s with
      | Failing ends_txn =>
          (Raises OperationalError,
           if ends_txn then set_session (Some Autocommit) w else w)
      | Healthy => run s t w
      end
  end.

End Sqlite.

(** ** Responses *)

Inductive content : Type :=
| Text (s : pystr)      (* [Response(content=...)]: the body as written *)
| Json (v : json).      (* a returned value, serialised by the framework *)

Record response : Type := Response {
  body : content;
  status_code : Z;
  media_type : pystr
}.

Definition quoted (s : pystr) : pystr := 34 :: s ++ [34].

(** The text [{"error":"<msg>"}], with nothing escaped. *)
Definition error_body (msg : pystr) : pystr :=
  lit "{" ++ quoted (lit "error") ++ lit ":" ++ quoted msg ++ lit "}".

Definition error_response (msg : pystr) (code : Z) : response :=
  Response (Text (error_body msg)) code (lit "application/json").

(** A handler that returns a value: 200 and the value as JSON. *)
Definition json_response (v : json) : response :=
  Response (Json v) 200 (lit "application/json").

(** [{"status": "success"}] *)
Definition success : json := JObj {[ lit "status" := JStr (lit "success") ]}.

(** [dict(row)] for a row of the table. *)
Definition dict (r : row) : json :=
  JObj (list_to_map
    [ (lit "test_id", JStr (test_id r));
      (lit "patient_id", JStr (patient_id r));
      (lit "clinic_id", JStr (clinic_id r));
      (lit "test_type", JStr (test_type r));
      (lit "result", JStr (result r));
      (lit "created_at", JStr (created_at r)) ]).

(** A value bound to a [?] of the INSERT. sqlite3 hands a [str] to the
    engine as UTF-8 and raises [UnicodeEncodeError] when the string has
    no encoding. The columns hold text; values that are not strings never
    get here (validation has rejected them), so their adaptation by
    sqlite3 is not modelled. *)
Definition bind_text (v : json) : outcome pystr :=
  match v with
  | JStr s => if Py.encodable s then Returns s else Raises UnicodeEncodeError
  | _ => Raises ProgrammingError
  end.

(** The parameter tuple of the INSERT (lines 110-117), evaluated left to
    right, [now] being [datetime.now().isoformat()], and then its
    binding, which [cursor.execute] does value by value before the
    statement runs: when a value cannot be bound the INSERT is not
    executed. *)
Definition parameters (data : json) (now : pystr) : outcome row :=
  a ← Py.getitem data (lit "test_id");
  b ← Py.getitem data (lit "patient_id");
  c ← Py.getitem data (lit "clinic_id");
  d ← Py.getitem data (lit "test_type");
  e ← Py.getitem data (lit "result");
  a' ← bind_text a;
  b' ← bind_text b;
  c' ← bind_text c;
  d' ← bind_text d;
  e' ← bind_text e;
  Returns (Row a' b' c' d' e' now).

(** ** POST /tests (lines 68-172) *)

(** [payload] is the result of [await request.json()]: [None] when it
    raised. [req_id] is [str(uuid.uuid4())]. *)
Definition create_test (payload : option json) (req_id now : pystr) : M response :=
  match payload with
  | None =>
      log WARNING (invalid_json req_id);;
      mret (error_response (lit "Invalid Json") 400)
  | Some data =>
      val_error ← lift (validate_data data);
      if Py.truthy_opt val_error then
        log WARNING (validation_failed req_id (default [] val_error));;
        mret (error_response (default [] val_error) 400)
      else
        Sqlite.connect;;
        try_finally
          (try_except
             (Sqlite.execute BEGIN;;
              r ← lift (parameters data now);
              Sqlite.execute (INSERT r);;
              Sqlite.execute COMMIT;;
              tid ← lift (Py.getitem data (lit "test_id"));
              log INFO (test_created req_id tid);;
              mret (json_response success))
             (λ e,
                match e with
                | IntegrityError =>
                    Sqlite.execute ROLLBACK;;
                    tid ← lift (Py.getitem data (lit "test_id"));
                    log ERROR (duplicate_test req_id tid);;
                    mret (error_response (lit "Conflict: test_id exists") 409)
                | _ =>
                    Sqlite.execute ROLLBACK;;
                    log ERROR (internal_server_error req_id e);;
                    mret (error_response (lit "Internal Error") 500)
                end))
          Sqlite.close
  end.

(** ** GET /tests (lines 175-225) *)

(** [clinic_id] is the query parameter as the framework decodes it from
    the URL; undecodable bytes are replaced there, so that it holds no
    surrogate and its binding does not fail. *)

Definition get_tests (clinic_id : option pystr) : M response :=
  if negb (Py.truthy_opt clinic_id) then
    log WARNING missing_clinic_id;;
    mret (error_response (lit "clinic_id is required") 400)
  else
    let cid := default [] clinic_id in
    Sqlite.connect;;
    try_finally
      (try_except
         (rows ← Sqlite.execute (SELECT cid);
          let results := map dict rows in
          log INFO (fetch_tests cid (length results));;
          mret (json_response (JArr results)))
         (λ e,
            log ERROR (fetch_failed cid e);;
            mret (error_response (lit "Internal server error") 500)))
      Sqlite.close.

(** A server at rest: the given rows, no connection, an empty journal. *)
Definition at_rest (rows : list row) (fs : faults) : world :=
  World rows None fs [].

(** ** Vocabulary of the contract *)

(** A required field as the contract words it: absent, not a string, or
    empty once white space is trimmed. *)
Definition invalid (d : gmap pystr json) (f : pystr) : Prop :=
  d !! f = None
  ∨ (∃ v, d !! f = Some v ∧ Py.is_str v = false)
  ∨ (∃ s, d !! f = Some (JStr s) ∧ Py.strip s = []).

(** The same test, computed. *)
Definition blank (d : gmap pystr json) (f : pystr) : bool :=
  match d !! f with
  | Some (JStr s) => negb (Py.truthy (Py.strip s))
  | _ => true
  end.

Definition is_storage (e : event) : bool :=
  match e with
  | Logged _ _ => false
  | _ => true
  end.

(** The storage calls of a journal. *)
Definition storage_calls (evs : list event) : list event := filter is_storage evs.

(** What was added to the journal begins with the opening of a connection
    and ends with its closing. *)
Definition bracketed (before after : list event) : Prop :=
  ∃ between, after = before ++ Connected :: between ++ [Closed].

(** The text of an error answer as the contract spells it, an object
    with the one member [error]: 123 and 125 are the braces, 34 the
    double quote, 58 the colon, and 101 114 114 111 114 the word
    [error]. *)
Definition error_text (msg : pystr) : pystr :=
  [123; 34; 101; 114; 114; 111; 114; 34; 58; 34] ++ msg ++ [34; 125].

(** The required fields in the order of the contract, each with the
    message that names it. *)
Definition field_messages : list (pystr * pystr) :=
  [ (lit "test_id", lit "Invalid or missing field: test_id");
    (lit "patient_id", lit "Invalid or missing field: patient_id");
    (lit "clinic_id", lit "Invalid or missing field: clinic_id");
    (lit "test_type", lit "Invalid or missing field: test_type");
    (lit "result", lit "Invalid or missing field: result") ].

(** [o] is the record object of row [r]: six members, each holding the
    stored string of its column. *)
Definition shows (r : row) (o : json) : Prop :=
  ∃ cols : gmap pystr json,
    o = JObj cols
    ∧ dom cols = list_to_set [lit "test_id"; lit "patient_id"; lit "clinic_id";
                              lit "test_type"; lit "result"; lit "created_at"]
    ∧ cols !! lit "test_id" = Some (JStr (test_id r))
    ∧ cols !! lit "patient_id" = Some (JStr (patient_id r))
    ∧ cols !! lit "clinic_id" = Some (JStr (clinic_id r))
    ∧ cols !! lit "test_type" = Some (JStr (test_type r))
    ∧ cols !! lit "result" = Some (JStr (result r))
    ∧ cols !! lit "created_at" = Some (JStr (created_at r)).

(** The storage works for a list query. *)
Definition can_query (w : world) : Prop :=
  on_connect (plan w) = false ∧ on_select (plan w) = Healthy.

(** The storage part of [create_test] (lines 99-172) once the parameter
    tuple [r] and [body["test_id"]] have been evaluated. *)
Definition insert_test (r : row) (tid : json) (req_id : pystr) : M response :=
  Sqlite.connect;;
  try_finally
    (try_except
       (Sqlite.execute BEGIN;;
        Sqlite.execute (INSERT r);;
        Sqlite.execute COMMIT;;
        log INFO (test_created req_id tid);;
        mret (json_response success))
       (λ e,
          match e with
          | IntegrityError =>
              Sqlite.execute ROLLBACK;;
              log ERROR (duplicate_test req_id tid);;
              mret (error_response (lit "Conflict: test_id exists") 409)
          | _ =>
              Sqlite.execute ROLLBACK;;
              log ERROR (internal_server_error req_id e);;
              mret (error_response (lit "Internal Error") 500)
          end))
    Sqlite.close.

(** The storage part of [create_test] for a parameter tuple that binds
    to [args] or fails to bind. *)
Definition store_test (args : outcome row) (tid : json) (req_id : pystr)
  : M response :=
  Sqlite.connect;;
  try_finally
    (try_except
       (Sqlite.execute BEGIN;;
        r ← lift args;
        Sqlite.execute (INSERT r);;
        Sqlite.execute COMMIT;;
        log INFO (test_created req_id tid);;
        mret (json_response success))
       (λ e,
          match e with
          | IntegrityError =>
              Sqlite.execute ROLLBACK;;
              log ERROR (duplicate_test req_id tid);;
              mret (error_response (lit "Conflict: test_id exists") 409)
          | _ =>
              Sqlite.execute ROLLBACK;;
              log ERROR (internal_server_error req_id e);;
              mret (error_response (lit "Internal Error") 500)
          end))
    Sqlite.close.

(** ** Sample data: the scenarios of the contract *)

Definition payload_of (t p c ty r : pystr) : gmap pystr json :=
  list_to_map
    [ (lit "test_id", JStr t); (lit "patient_id", JStr p);
      (lit "clinic_id", JStr c); (lit "test_type", JStr ty);
      (lit "result", JStr r) ].

Definition sample : gmap pystr json :=
  payload_of (lit "t1") (lit "p1") (lit "c1") (lit "pcr") (lit "positive").

Definition sample_no_patient : gmap pystr json :=
  payload_of (lit "t2") [] (lit "c1") (lit "pcr") (lit "neg").

Definition sample_blank_clinic : gmap pystr json :=
  payload_of (lit "t3") (lit "p1") (lit " ") (lit "pcr") (lit "neg").


(** A [patient_id] of a space, a tab and a no-break space. *)
Definition sample_blank_patient : gmap pystr json :=
  payload_of (lit "t2") [32; 9; 160] (lit "c1") (lit "pcr") (lit "neg").

(** A [patient_id] that is the lone surrogate U+D800. *)
Definition sample_surrogate : gmap pystr json :=
  payload_of (lit "t5") [55296] (lit "c1") (lit "pcr") (lit "neg").


Definition clock : pystr := lit "2024-05-01T10:00:00.000000".

Definition rid : pystr := lit "00000000-0000-4000-8000-000000000000".

Definition sample_row : row :=
  Row (lit "t1") (lit "p1") (lit "c1") (lit "pcr") (lit "positive") clock.

Definition other_row : row :=
  Row (lit "t9") (lit "p4") (lit "C1") (lit "pcr") (lit "neg") clock.

(** Rows whose [clinic_id] is one space, two spaces, and [c1] between
    spaces. *)
Definition blank_row : row :=
  Row (lit "t6") (lit "p6") (lit " ") (lit "pcr") (lit "neg") clock.

Definition wider_blank_row : row :=
  Row (lit "t7") (lit "p7") (lit "  ") (lit "pcr") (lit "neg") clock.

Definition padded_row : row :=
  Row (lit "t8") (lit "p8") (lit " c1 ") (lit "pcr") (lit "neg") clock.

(** COMMIT fails and SQLite ends the transaction, so that the ROLLBACK of
    the handler fails as well. *)
Definition commit_lost : faults :=
  Faults false Healthy Healthy (Failing true) Healthy Healthy.

Definition select_fails : faults :=
  Faults false Healthy Healthy Healthy Healthy (Failing false).

(** ** Further vocabulary *)

Definition is_log (e : event) : bool :=
  match e with
  | Logged _ _ => true
  | _ => false
  end.

(** The log lines of a journal. *)
Definition log_lines (evs : list event) : list event := filter is_log evs.

(** The level at which each status is logged. *)
Definition level_of (code : Z) : option level :=
  if (code =? 200)%Z then Some INFO
  else if (code =? 400)%Z then Some WARNING
  else if ((code =? 409) || (code =? 500))%Z then Some ERROR
  else None.

(** Two bodies that carry the same five required entries. *)
Definition agree (d d' : gmap pystr json) : Prop :=
  ∀ f, f ∈ fields → d !! f = d' !! f.


(** No two rows share a [test_id]. *)
Definition unique_keys (rows : list row) : Prop := NoDup (test_id <$> rows).

(** ** Start-up (lines 44-64) *)

Module Startup.

(** What [initialise_db] does to the outside, in order. *)
Inductive step : Type :=
| Opened                  (* [sqlite3.connect(DB_PATH)] succeeded *)
| CreateTable             (* the CREATE TABLE IF NOT EXISTS was executed *)
| DatabaseInitialized     (* [logger.info("Database initialized")] *)
| Shut.                   (* [conn.close()] *)

(** The database file before the server runs: table [tests] is absent
    or holds rows; [connections] counts the open connections. *)
Record database : Type := Database {
  table : option (list row);
  connections : nat;
  trace : list step
}.

Record boot_faults : Type := BootFaults {
  connect_fails : bool;
  create_fails : bool
}.

Definition mark (s : step) (db : database) : database :=
  Database (table db) (connections db) (trace db ++ [s]).

(** [CREATE TABLE IF NOT EXISTS tests(...)]: an existing table is left
    as it is. *)
Definition create_if_absent (db : database) : database :=
  Database (Some (default [] (table db))) (connections db) (trace db).

Definition open (db : database) : database :=
  mark Opened (Database (table db) (S (connections db)) (trace db)).

Definition shut (db : database) : database :=
  mark Shut (Database (table db) (pred (connections db)) (trace db)).

(** The body of the [try] (lines 47-59). *)
Definition create_and_log (fs : boot_faults) (db : database) : outcome () * database :=
  if create_fails fs then (Raises OperationalError, mark CreateTable db)
  else (Returns (), mark DatabaseInitialized (create_if_absent (mark CreateTable db))).

(** [initialise_db()]: the connect is outside the [try]; there is no
    [except], so a failure leaves the function after the [finally]. *)
Definition initialise_db (fs : boot_faults) (db : database) : outcome () * database :=
  if connect_fails fs then (Raises OperationalError, db)
  else
    match create_and_log fs (open db) with
    | (r, db') => (r, shut db')
    end.


End Startup.

(** A body with a client-side [created_at] and a note besides the five
    required entries. *)
Definition sample_with_extras : gmap pystr json :=
  <[lit "created_at" := JStr (lit "1999-01-01")]>
    (<[lit "note" := JInt 7]> sample).

(** INSERT fails and leaves the transaction open. *)
Definition insert_fails : faults :=
  Faults false Healthy (Failing false) Healthy Healthy Healthy.

Definition begin_fails : faults :=
  Faults false (Failing false) Healthy Healthy Healthy Healthy.

Definition connect_refused : faults :=
  Faults true Healthy Healthy Healthy Healthy Healthy.

(** ** Tactics *)

Ltac unfold_monad :=
  unfold try_finally, try_except, log, lift, Sqlite.connect, Sqlite.close,
    Sqlite.execute, mbind, M_bind, mret, M_ret.

Ltac split_plan w :=
  destruct w as [rows ss [oc ob oi ocm orb os] j]; cbn in *.

Ltac normalise_journal := rewrite <- ?app_assoc; cbn [app].

Ltac show_bracketed :=
  unfold bracketed; normalise_journal;
  match goal with
  | |- ∃ _, _ ++ Connected :: ?l = _ => exists (removelast l); reflexivity
  end.

Ltac fields_cases H :=
  unfold fields in H;
  repeat (apply elem_of_cons in H as [-> | H]);
  [.. | by apply elem_of_nil in H].

(** ** Validation *)

Lemma truthy_false s : Py.truthy s = false ↔ s = [].
Proof. destruct s; cbn; split; congruence. Qed.

Lemma strip_nonempty s : Py.strip s ≠ [] → s ≠ [].
Proof. intros H ->. by apply H. Qed.

Lemma complaint_nonempty f : complaint f ≠ [].
Proof. done. Qed.

Lemma blank_invalid d f : blank d f = true ↔ invalid d f.
Proof.
  unfold blank, invalid. destruct (d !! f) as [v|] eqn:E.
  - destruct v; cbn; split; intros H; try done;
      try (right; left; eexists; split; [reflexivity | done]).
    + right; right. exists s. split; [done|]. apply truthy_false.
      by destruct (Py.truthy (Py.strip s)).
    + destruct H as [H | [(v & Hv & Hs) | (s' & Hv & Hs)]]; simplify_eq; try done.
      by rewrite Hs.
  - split; [by left | done].
Qed.

Lemma blank_false d f :
  blank d f = false → ∃ s, d !! f = Some (JStr s) ∧ Py.strip s ≠ [].
Proof.
  unfold blank. destruct (d !! f) as [[]|]; try done.
  intros H. eexists; split; [done|]. intros E. by rewrite E in H.
Qed.

Lemma field_fails_dict d f : field_fails (JObj d) f = Returns (blank d f).
Proof.
  unfold field_fails, blank; cbn.
  destruct (d !! f) as [v|] eqn:E; cbn; [|done].
  destruct v; cbn; done.
Qed.

(** On a body that is not a dict the test of a field fails or raises. *)
Lemma field_fails_other data f :
  (∀ d, data ≠ JObj d) →
  field_fails data f = Returns true ∨ field_fails data f = Raises TypeError.
Proof.
  intros Hd. unfold field_fails. destruct data; cbn; auto.
  - destruct (Py.substring f s); cbn; auto.
  - destruct (existsb _ xs); cbn; auto.
  - by destruct (Hd d).
Qed.

Lemma validate_loop_cons data f rest :
  validate_loop data (f :: rest) =
  bad ← field_fails data f;
  if (bad : bool) then Returns (Some (complaint f)) else validate_loop data rest.
Proof. reflexivity. Qed.

Lemma validate_loop_first d pre f post :
  Forall (λ g, blank d g = false) pre →
  blank d f = true →
  validate_loop (JObj d) (pre ++ f :: post) = Returns (Some (complaint f)).
Proof.
  intros Hpre Hf.
  induction Hpre as [|g pre Hg _ IH]; cbn [app];
    rewrite validate_loop_cons, field_fails_dict; cbn.
  - by rewrite Hf.
  - by rewrite Hg.
Qed.

Lemma validate_loop_pass d fs :
  validate_loop (JObj d) fs = Returns None ↔ Forall (λ g, blank d g = false) fs.
Proof.
  induction fs as [|f fs IH].
  - split; [constructor | done].
  - rewrite validate_loop_cons, field_fails_dict; cbn. destruct (blank d f) eqn:E.
    + split; [done |]. inversion 1; congruence.
    + rewrite IH. split; [by constructor | by inversion 1].
Qed.

(** On a dict the loop never raises. *)
Lemma validate_loop_dict d fs :
  validate_loop (JObj d) fs = Returns None
  ∨ ∃ f, f ∈ fs ∧ validate_loop (JObj d) fs = Returns (Some (complaint f)).
Proof.
  induction fs as [|f fs IH]; [by left|].
  rewrite validate_loop_cons, field_fails_dict; cbn. destruct (blank d f).
  - right. exists f. split; [left | done].
  - destruct IH as [IH | (g & Hg & IH)]; [by left|].
    right. exists g. split; [by right | done].
Qed.

(** An error message of the loop is never the empty string. *)
Lemma validate_loop_some data fs msg :
  validate_loop data fs = Returns (Some msg) → ∃ f, msg = complaint f.
Proof.
  induction fs as [|f fs IH]; [done|].
  rewrite validate_loop_cons. destruct (field_fails data f) as [[]|]; cbn;
    [intros [= <-]; eauto | done | done].
Qed.

Lemma validate_loop_names data fs msg :
  validate_loop data fs = Returns (Some msg) → ∃ f, f ∈ fs ∧ msg = complaint f.
Proof.
  induction fs as [|f fs IH]; [done|].
  rewrite validate_loop_cons. destruct (field_fails data f) as [[]|]; cbn;
    [intros [= <-]; exists f; split; [left | done] | | done].
  intros H. destruct (IH H) as (g & Hg & ->). exists g. split; [by right | done].
Qed.

(** A body that is not a dict never passes. *)
Lemma validate_data_dict data :
  validate_data data = Returns None → ∃ d, data = JObj d.
Proof.
  destruct data; eauto; unfold validate_data, fields;
    rewrite validate_loop_cons;
    match goal with
    | |- context [field_fails ?x ?f] =>
        destruct (field_fails_other x f) as [-> | ->]; [done | | ]; cbn; done
    end.
Qed.

(** What a body that passes validation looks like. *)
Lemma validate_data_pass data :
  validate_data data = Returns None →
  ∃ d t p c ty r,
    data = JObj d
    ∧ d !! lit "test_id" = Some (JStr t) ∧ d !! lit "patient_id" = Some (JStr p)
    ∧ d !! lit "clinic_id" = Some (JStr c) ∧ d !! lit "test_type" = Some (JStr ty)
    ∧ d !! lit "result" = Some (JStr r)
    ∧ Py.strip c ≠ [].
Proof.
  intros H. destruct (validate_data_dict _ H) as [d ->].
  apply validate_loop_pass in H. unfold fields in H.
  repeat match goal with
         | H : Forall _ (_ :: _) |- _ => inversion H; clear H; subst
         end.
  repeat match goal with
         | H : blank _ _ = false |- _ => apply blank_false in H; destruct H as (? & ? & ?)
         end.
  eexists d, _, _, _, _, _. repeat split; eauto.
Qed.

Lemma validate_data_agree d d' :
  agree d d' → validate_data (JObj d) = validate_data (JObj d').
Proof.
  unfold validate_data, agree. generalize fields as fs.
  induction fs as [|f fs IH]; intros H; [done|].
  rewrite !validate_loop_cons, !field_fails_dict. unfold blank.
  rewrite (H f) by left. rewrite IH; [done|]. intros g Hg. apply H. by right.
Qed.

(** The two spellings of the loop's inputs and messages agree. *)
Lemma fields_messages : fields = field_messages.*1.
Proof. reflexivity. Qed.

Lemma field_message f msg : (f, msg) ∈ field_messages → msg = complaint f.
Proof.
  unfold field_messages. intros H.
  repeat (apply elem_of_cons in H as [[= -> ->] | H]; [reflexivity|]).
  by apply elem_of_nil in H.
Qed.

Lemma field_has_message f : f ∈ fields → (f, complaint f) ∈ field_messages.
Proof. intros H. fields_cases H; vm_compute; repeat constructor. Qed.

Lemma error_body_spelled msg : error_body msg = error_text msg.
Proof.
  unfold error_body, error_text, quoted, lit. cbn. by rewrite <- app_assoc.
Qed.

Lemma error_response_text msg code :
  error_response msg code
  = Response (Text (error_text msg)) code (lit "application/json").
Proof. unfold error_response. by rewrite error_body_spelled. Qed.

(** ** White space *)

(** Leading white space goes, and only white space. *)
Lemma lstrip_nil s : Py.lstrip s = [] ↔ forallb Py.isspace s = true.
Proof.
  induction s as [|c s IH]; cbn; [done|].
  destruct (Py.isspace c); cbn; [done|]. split; discriminate.
Qed.

Lemma lstrip_head s c t : Py.lstrip s = c :: t → Py.isspace c = false.
Proof.
  induction s as [|a s IH]; cbn; [done|].
  destruct (Py.isspace a) eqn:E; [done|]. by intros [= -> ->].
Qed.

Lemma lstrip_snoc s c : Py.isspace c = false → Py.lstrip (s ++ [c]) ≠ [].
Proof.
  intros Hc. induction s as [|a s IH]; cbn.
  - by rewrite Hc.
  - by destruct (Py.isspace a).
Qed.

Lemma forallb_false {A} (p : A → bool) l :
  forallb p l = false → ∃ x, x ∈ l ∧ p x = false.
Proof.
  induction l as [|a l IH]; cbn; [done|]. destruct (p a) eqn:E; cbn.
  - intros H. destruct (IH H) as (x & Hx & Hp). exists x. split; [by right | done].
  - intros _. exists a. split; [by left | done].
Qed.

Lemma strip_nil s : Py.strip s = [] ↔ forallb Py.isspace s = true.
Proof.
  rewrite <- lstrip_nil. unfold Py.strip, Py.rstrip.
  destruct (Py.lstrip s) as [|c t] eqn:E; [done|].
  split; [|done]. intros H. apply (f_equal (@rev N)) in H.
  rewrite rev_involutive in H. cbn in H.
  by apply lstrip_snoc in H; [|eapply lstrip_head].
Qed.

(** ** The parameter tuple *)

Lemma parameters_pass d t p c ty r now :
  d !! lit "test_id" = Some (JStr t) → d !! lit "patient_id" = Some (JStr p) →
  d !! lit "clinic_id" = Some (JStr c) → d !! lit "test_type" = Some (JStr ty) →
  d !! lit "result" = Some (JStr r) →
  Py.encodable t = true → Py.encodable p = true → Py.encodable c = true →
  Py.encodable ty = true → Py.encodable r = true →
  parameters (JObj d) now = Returns (Row t p c ty r now).
Proof.
  intros H1 H2 H3 H4 H5 E1 E2 E3 E4 E5. unfold parameters; cbn.
  rewrite H1, H2, H3, H4, H5. cbn. by rewrite E1, E2, E3, E4, E5.
Qed.

(** Five strings either bind, unchanged, or the binding raises
    [UnicodeEncodeError]. *)
Lemma parameters_cases d t p c ty r now :
  d !! lit "test_id" = Some (JStr t) → d !! lit "patient_id" = Some (JStr p) →
  d !! lit "clinic_id" = Some (JStr c) → d !! lit "test_type" = Some (JStr ty) →
  d !! lit "result" = Some (JStr r) →
  (parameters (JObj d) now = Returns (Row t p c ty r now)
   ∧ Py.encodable t = true ∧ Py.encodable p = true ∧ Py.encodable c = true
   ∧ Py.encodable ty = true ∧ Py.encodable r = true)
  ∨ (parameters (JObj d) now = Raises UnicodeEncodeError
     ∧ (Py.encodable t = false ∨ Py.encodable p = false ∨ Py.encodable c = false
        ∨ Py.encodable ty = false ∨ Py.encodable r = false)).
Proof.
  intros H1 H2 H3 H4 H5. unfold parameters; cbn.
  rewrite H1, H2, H3, H4, H5. cbn.
  destruct (Py.encodable t); cbn; [|right; auto].
  destruct (Py.encodable p); cbn; [|right; auto].
  destruct (Py.encodable c); cbn; [|right; auto].
  destruct (Py.encodable ty); cbn; [|right; auto 6].
  destruct (Py.encodable r); cbn; [|right; auto 6].
  left. done.
Qed.


(** ** The journal *)

Lemma storage_calls_logged l e w :
  storage_calls (journal (note (Logged l e) w)) = storage_calls (journal w).
Proof.
  unfold storage_calls, note; cbn [journal].
  by rewrite list.filter_app, app_nil_r.
Qed.

Lemma log_lines_app l k : log_lines (l ++ k) = log_lines l ++ log_lines k.
Proof. unfold log_lines. apply list.filter_app. Qed.

Ltac count_log_lines :=
  cbn [journal note set_session set_tests fst snd]; normalise_journal;
  rewrite ?log_lines_app; cbn;
  rewrite ?app_nil_r.

Ltac count_storage_calls :=
  unfold storage_calls; cbn [journal note set_session set_tests fst snd];
  normalise_journal; rewrite list.filter_app; reflexivity.

(** ** The create path *)

(** Validation touches nothing: a rejected body leaves the world as it
    was, one log line apart. *)
Lemma create_test_rejected data msg req now w :
  validate_data data = Returns (Some msg) → msg ≠ [] →
  create_test (Some data) req now w =
    (Returns (error_response msg 400),
     note (Logged WARNING (validation_failed req msg)) w).
Proof.
  intros Hv Hm. unfold create_test. unfold_monad. rewrite Hv. cbn.
  destruct msg; [done | reflexivity].
Qed.

Lemma store_test_returns r tid req w :
  store_test (Returns r) tid req w = insert_test r tid req w.
Proof. reflexivity. Qed.

(** An accepted body reaches storage with its five values as submitted;
    there they are bound, or the binding fails. *)
Lemma create_test_accepted data req now w :
  validate_data data = Returns None →
  ∃ d t p c ty r,
    data = JObj d
    ∧ d !! lit "test_id" = Some (JStr t) ∧ d !! lit "patient_id" = Some (JStr p)
    ∧ d !! lit "clinic_id" = Some (JStr c) ∧ d !! lit "test_type" = Some (JStr ty)
    ∧ d !! lit "result" = Some (JStr r)
    ∧ Py.strip c ≠ []
    ∧ create_test (Some data) req now w
      = store_test (parameters data now) (JStr t) req w
    ∧ (parameters data now = Returns (Row t p c ty r now)
       ∨ parameters data now = Raises UnicodeEncodeError).
Proof.
  intros Hv.
  destruct (validate_data_pass _ Hv)
    as (d & t & p & c & ty & r & -> & Ht & Hp & Hcl & Hty & Hr & Hc).
  exists d, t, p, c, ty, r. repeat (split; [done|]). split.
  - unfold create_test, store_test. unfold_monad. rewrite Hv. cbn.
    rewrite Ht. reflexivity.
  - destruct (parameters_cases d t p c ty r now) as [[? _]|[? _]]; auto.
Qed.

(** Whatever the body, [create_test] changes the table only through the
    storage part. *)
Lemma create_test_cases data req now w :
  (validate_data data ≠ Returns None
   ∧ tests (create_test (Some data) req now w).2 = tests w
   ∧ ∀ resp, (create_test (Some data) req now w).1 = Returns resp →
             status_code resp = 400%Z)
  ∨ validate_data data = Returns None.
Proof.
  destruct (validate_data data) as [[msg|]|e] eqn:Hv; [| by right |].
  - left. destruct (validate_loop_some _ _ _ Hv) as [f ->].
    rewrite (create_test_rejected _ _ req now w Hv (complaint_nonempty f)).
    split; [done|]. split; [done|]. by intros resp [= <-].
  - left. unfold create_test. unfold_monad. rewrite Hv. by split.
Qed.

(** [create_test] looks at the body through three readings only. *)
Lemma create_test_ext data data' req now w :
  validate_data data = validate_data data' →
  parameters data now = parameters data' now →
  Py.getitem data (lit "test_id") = Py.getitem data' (lit "test_id") →
  create_test (Some data) req now w = create_test (Some data') req now w.
Proof.
  intros Hv Hp Ht. unfold create_test. unfold_monad. by rewrite Hv, Hp, Ht.
Qed.

Lemma has_key_elem k rows :
  Sqlite.has_key k rows = true ↔ ∃ r, r ∈ rows ∧ test_id r = k.
Proof.
  unfold Sqlite.has_key. rewrite existsb_exists. split.
  - intros (r & Hr & Hk). exists r. split; [by apply list_elem_of_In|].
    by apply bool_decide_eq_true in Hk.
  - intros (r & Hr & Hk). exists r. split; [by apply list_elem_of_In|].
    by apply bool_decide_eq_true.
Qed.



(** A 200 from the storage part means the row has been added. *)
Lemma insert_test_success r tid req w resp w' :
  insert_test r tid req w = (Returns resp, w') →
  status_code resp = 200%Z →
  tests w' = tests w ++ [r].
Proof.
  unfold insert_test. unfold_monad. unfold Sqlite.run.
  split_plan w.
  destruct oc, ob as [|[]], oi as [|[]], ocm as [|[]], orb as [|[]];
    cbn; try (destruct (existsb _ rows); cbn);
    intros [= <- <-]; cbn; done.
Qed.

Lemma insert_test_releases r tid req w :
  on_connect (plan w) = false →
  session (insert_test r tid req w).2 = None
  ∧ bracketed (journal w) (journal (insert_test r tid req w).2).
Proof.
  intros Hc. unfold insert_test. unfold_monad. unfold Sqlite.run.
  split_plan w. subst oc. cbn.
  destruct ob as [|[]], oi as [|[]], ocm as [|[]], orb as [|[]];
    cbn; try (destruct (existsb _ rows); cbn);
    (split; [reflexivity | show_bracketed]).
Qed.


(** The table after the storage part: as before, or one row longer, and
    then the answer is the 200 and the key was free. *)
Lemma insert_test_effect r tid req w :
  tests (insert_test r tid req w).2 = tests w
  ∨ ((insert_test r tid req w).1 = Returns (json_response success)
     ∧ tests (insert_test r tid req w).2 = tests w ++ [r]
     ∧ Sqlite.has_key (test_id r) (tests w) = false).
Proof.
  unfold insert_test. unfold_monad. unfold Sqlite.run, Sqlite.has_key.
  split_plan w.
  destruct oc, ob as [|[]], oi as [|[]], ocm as [|[]], orb as [|[]];
    cbn; try (destruct (existsb _ rows) eqn:E; cbn); auto.
Qed.

(** What the storage part answers and logs, plan by plan. *)
Lemma insert_test_logs r tid req w resp :
  (insert_test r tid req w).1 = Returns resp →
  ∃ l e,
    log_lines (journal (insert_test r tid req w).2)
      = log_lines (journal w) ++ [Logged l e]
    ∧ level_of (status_code resp) = Some l
    ∧ status_code resp ≠ 400%Z.
Proof.
  unfold insert_test. unfold_monad. unfold Sqlite.run.
  split_plan w.
  destruct oc, ob as [|[]], oi as [|[]], ocm as [|[]], orb as [|[]];
    cbn; try (destruct (existsb _ rows); cbn);
    intros [= <-]; eexists _, _; (split; [count_log_lines; reflexivity|]);
    split; done.
Qed.

Lemma insert_test_answers r tid req w :
  on_connect (plan w) = false → on_begin (plan w) = Healthy →
  on_rollback (plan w) = Healthy →
  on_insert (plan w) ≠ Failing true → on_commit (plan w) ≠ Failing true →
  ∃ resp, (insert_test r tid req w).1 = Returns resp.
Proof.
  intros Hc Hb Hr Hi Hcm. unfold insert_test. unfold_monad. unfold Sqlite.run.
  split_plan w. subst.
  destruct oi as [|[]], ocm as [|[]]; try done;
    cbn; try (destruct (existsb _ rows); cbn); eauto.
Qed.

(** *** When the tuple does not bind *)

Lemma refused_effect tid req w :
  tests (store_test (Raises UnicodeEncodeError) tid req w).2 = tests w.
Proof.
  unfold store_test. unfold_monad. unfold Sqlite.run. split_plan w.
  destruct oc, ob as [|[]], orb as [|[]]; reflexivity.
Qed.

Lemma refused_releases tid req w :
  on_connect (plan w) = false →
  session (store_test (Raises UnicodeEncodeError) tid req w).2 = None
  ∧ bracketed (journal w)
      (journal (store_test (Raises UnicodeEncodeError) tid req w).2).
Proof.
  intros Hc. unfold store_test. unfold_monad. unfold Sqlite.run.
  split_plan w. subst oc.
  destruct ob as [|[]], orb as [|[]]; cbn;
    (split; [reflexivity | show_bracketed]).
Qed.

Lemma refused_logs tid req w resp :
  (store_test (Raises UnicodeEncodeError) tid req w).1 = Returns resp →
  ∃ l e,
    log_lines (journal (store_test (Raises UnicodeEncodeError) tid req w).2)
      = log_lines (journal w) ++ [Logged l e]
    ∧ level_of (status_code resp) = Some l
    ∧ status_code resp = 500%Z.
Proof.
  unfold store_test. unfold_monad. unfold Sqlite.run. split_plan w.
  destruct oc, ob as [|[]], orb as [|[]]; cbn;
    intros [= <-]; eexists _, _; (split; [count_log_lines; reflexivity|]);
    split; done.
Qed.

(** With the connect, BEGIN and ROLLBACK working, a tuple that does not
    bind is answered 500; the INSERT is never executed. *)
Lemma refused_healthy tid req w :
  on_connect (plan w) = false → on_begin (plan w) = Healthy →
  on_rollback (plan w) = Healthy →
  store_test (Raises UnicodeEncodeError) tid req w =
    (Returns (error_response (lit "Internal Error") 500),
     World (tests w) None (plan w)
       (journal w ++ [Connected; Executed BEGIN; Executed ROLLBACK;
                      Logged ERROR (internal_server_error req UnicodeEncodeError);
                      Closed])).
Proof.
  intros Hc Hb Hr. unfold store_test. unfold_monad. unfold Sqlite.run.
  split_plan w. subst. cbn. unfold note, set_session; cbn.
  by normalise_journal.
Qed.

(** *** Failures before the tuple is looked at *)

Lemma store_test_connect_fails args tid req w :
  on_connect (plan w) = true →
  store_test args tid req w = (Raises OperationalError, w).
Proof. intros Hc. unfold store_test. unfold_monad. by rewrite Hc. Qed.

Lemma store_test_begin_fails args tid req w ends :
  on_connect (plan w) = false → on_begin (plan w) = Failing ends →
  (store_test args tid req w).1 = Raises OperationalError
  ∧ tests (store_test args tid req w).2 = tests w
  ∧ session (store_test args tid req w).2 = None
  ∧ storage_calls (journal (store_test args tid req w).2)
    = storage_calls (journal w)
      ++ [Connected; Executed BEGIN; Executed ROLLBACK; Closed]
  ∧ log_lines (journal (store_test args tid req w).2) = log_lines (journal w).
Proof.
  intros Hc Hb. unfold store_test. unfold_monad. unfold Sqlite.run.
  split_plan w. subst.
  destruct ends, orb as [|[]]; cbn; repeat (split; [reflexivity|]);
    (split; [count_storage_calls | count_log_lines; reflexivity]).
Qed.

(** *** Both ways together *)

Lemma accepted_releases data req now w :
  validate_data data = Returns None → on_connect (plan w) = false →
  session (create_test (Some data) req now w).2 = None
  ∧ bracketed (journal w) (journal (create_test (Some data) req now w).2).
Proof.
  intros Hv Hc.
  destruct (create_test_accepted data req now w Hv)
    as (d & t & p & c & ty & r & _ & _ & _ & _ & _ & _ & _ & -> & [-> | ->]).
  - rewrite store_test_returns. by apply insert_test_releases.
  - by apply refused_releases.
Qed.

Lemma accepted_logs data req now w resp :
  validate_data data = Returns None →
  (create_test (Some data) req now w).1 = Returns resp →
  ∃ l e,
    log_lines (journal (create_test (Some data) req now w).2)
      = log_lines (journal w) ++ [Logged l e]
    ∧ level_of (status_code resp) = Some l
    ∧ status_code resp ≠ 400%Z.
Proof.
  intros Hv.
  destruct (create_test_accepted data req now w Hv)
    as (d & t & p & c & ty & r & _ & _ & _ & _ & _ & _ & _ & -> & [-> | ->]).
  - rewrite store_test_returns. apply insert_test_logs.
  - intros H. destruct (refused_logs _ _ _ _ H) as (l & e & Hl & Hlv & Hs).
    exists l, e. repeat (split; [done|]). by rewrite Hs.
Qed.

(** A 200 means that the tuple was bound and its row added. *)
Lemma accepted_200 data req now w resp w' :
  validate_data data = Returns None →
  create_test (Some data) req now w = (Returns resp, w') →
  status_code resp = 200%Z →
  ∃ r, parameters data now = Returns r ∧ tests w' = tests w ++ [r].
Proof.
  intros Hv.
  destruct (create_test_accepted data req now w Hv)
    as (d & t & p & c & ty & r & _ & _ & _ & _ & _ & _ & _ & -> & [Hp | Hp]);
    rewrite Hp.
  - rewrite store_test_returns. intros Hrun Hok. eexists. split; [done|].
    by eapply insert_test_success.
  - intros Hrun Hok.
    destruct (refused_logs (JStr t) req w resp) as (_ & _ & _ & _ & Hs);
      [by rewrite Hrun|]. congruence.
Qed.

Lemma create_test_effect payload req now w :
  tests (create_test payload req now w).2 = tests w
  ∨ ∃ r, (create_test payload req now w).1 = Returns (json_response success)
       ∧ tests (create_test payload req now w).2 = tests w ++ [r]
       ∧ Sqlite.has_key (test_id r) (tests w) = false
       ∧ created_at r = now.
Proof.
  destruct payload as [data|]; [|by left].
  destruct (create_test_cases data req now w) as [(_ & Hsame & _)|Hv]; [by left|].
  destruct (create_test_accepted data req now w Hv)
    as (d & t & p & c & ty & r & _ & _ & _ & _ & _ & _ & _ & -> & [-> | ->]).
  - rewrite store_test_returns.
    destruct (insert_test_effect (Row t p c ty r now) (JStr t) req w)
      as [|(Ho & Ht & Hk)]; [by left|].
    right. by exists (Row t p c ty r now).
  - left. apply refused_effect.
Qed.

(** ** The list path *)

Lemma get_tests_healthy cid w :
  cid ≠ [] → can_query w →
  get_tests (Some cid) w =
    (Returns (json_response (JArr (map dict (matching cid (tests w))))),
     World (tests w) None (plan w)
       (journal w ++ [Connected; Executed (SELECT cid);
                      Logged INFO (fetch_tests cid (length (matching cid (tests w))));
                      Closed])).
Proof.
  intros Hcid [Hc Hs]. unfold get_tests. destruct cid as [|a cid]; [done|].
  cbn [Py.truthy_opt Py.truthy negb default]. unfold_monad. unfold Sqlite.run.
  split_plan w. subst. cbn. unfold note, set_session; cbn.
  normalise_journal. by rewrite length_map.
Qed.

Lemma get_tests_releases cid w :
  cid ≠ [] →
  on_connect (plan w) = false →
  session (get_tests (Some cid) w).2 = None
  ∧ bracketed (journal w) (journal (get_tests (Some cid) w).2).
Proof.
  intros Hcid Hc. unfold get_tests. destruct cid as [|a cid]; [done|].
  cbn [Py.truthy_opt Py.truthy negb default]. unfold_monad. unfold Sqlite.run.
  split_plan w. subst. destruct os as [|[]]; cbn;
    (split; [reflexivity | show_bracketed]).
Qed.

Lemma matching_elem cid rows r :
  r ∈ matching cid rows ↔ r ∈ rows ∧ clinic_id r = cid.
Proof. unfold matching. rewrite list_elem_of_filter. tauto. Qed.

Lemma matching_none cid rows :
  (∀ r, r ∈ rows → clinic_id r ≠ cid) → matching cid rows = [].
Proof.
  intros Hnone. unfold matching. induction rows as [|r rows IH]; [done|].
  rewrite filter_cons, decide_False by (apply Hnone; left).
  apply IH. intros r' Hr'. apply Hnone. by right.
Qed.

(** The six keys of a record object. *)
Lemma dict_keys r :
  ∃ cols, dict r = JObj cols
    ∧ dom cols = list_to_set (fields ++ [lit "created_at"]).
Proof.
  eexists. split; [reflexivity|]. rewrite dom_list_to_map_L. reflexivity.
Qed.

(** Past the guard the answer is 200 or 500. *)
Lemma get_tests_not_rejected cid w resp :
  cid ≠ [] →
  (get_tests (Some cid) w).1 = Returns resp →
  status_code resp ≠ 400%Z.
Proof.
  intros Hcid. unfold get_tests. destruct cid as [|a cid]; [done|].
  cbn [Py.truthy_opt Py.truthy negb default]. unfold_monad. unfold Sqlite.run.
  split_plan w. destruct oc, os as [|[]]; cbn; by intros [= <-].
Qed.

Lemma matching_filter cid rows :
  matching cid rows = filter (λ r, clinic_id r = cid) rows.
Proof. reflexivity. Qed.

Lemma dict_shows r : shows r (dict r).
Proof.
  eexists. split; [reflexivity|]. split; [|by repeat split].
  rewrite dom_list_to_map_L. reflexivity.
Qed.

Lemma dicts_show rows : Forall2 shows rows (map dict rows).
Proof. induction rows; constructor; [apply dict_shows | done]. Qed.

(** ** The scenarios of the contract, run *)

Example scenario_first_submission :
  create_test (Some (JObj sample)) rid clock (at_rest [] no_faults) =
    (Returns (json_response success),
     World [sample_row] None no_faults
       [Connected; Executed BEGIN; Executed (INSERT sample_row); Executed COMMIT;
        Logged INFO (test_created rid (JStr (lit "t1"))); Closed]).
Proof. vm_compute. reflexivity. Qed.

Example scenario_second_submission :
  (create_test (Some (JObj sample)) rid clock (at_rest [sample_row] no_faults)).1 =
    Returns (error_response (lit "Conflict: test_id exists") 409).
Proof. vm_compute. reflexivity. Qed.

Example scenario_list :
  (get_tests (Some (lit "c1")) (at_rest [sample_row; other_row] no_faults)).1 =
    Returns (json_response (JArr [dict sample_row])).
Proof. vm_compute. reflexivity. Qed.

Example scenario_list_is_case_sensitive :
  (get_tests (Some (lit "C1")) (at_rest [sample_row; other_row] no_faults)).1 =
    Returns (json_response (JArr [dict other_row])).
Proof. vm_compute. reflexivity. Qed.

Example scenario_array_body :
  (create_test (Some (JArr [JStr (lit "test_id")])) rid clock (at_rest [] no_faults)).1 =
    Raises TypeError
  ∧ (create_test (Some (JArr [])) rid clock (at_rest [] no_faults)).1 =
    Returns (error_response (complaint (lit "test_id")) 400).
Proof. split; vm_compute; reflexivity. Qed.

(** When COMMIT fails and has ended the transaction, the ROLLBACK of the
    handler raises: the exception leaves the handler, after the close. *)
Example scenario_commit_lost :
  create_test (Some (JObj sample)) rid clock (at_rest [] commit_lost) =
    (Raises OperationalError,
     World [] None commit_lost
       [Connected; Executed BEGIN; Executed (INSERT sample_row); Executed COMMIT;
        Executed ROLLBACK; Closed]).
Proof. vm_compute. reflexivity. Qed.

Example strip_keeps_inner_space :
  Py.strip (lit "  a b  ") = lit "a b" ∧ Py.strip (lit "   ") = [].
Proof. split; reflexivity. Qed.

Example error_body_text :
  error_body (lit "x") = [123; 34; 101; 114; 114; 111; 114; 34; 58; 34; 120; 34; 125].
Proof. reflexivity. Qed.

(** A body whose [patient_id] is a lone surrogate passes validation and
    fails when the tuple is bound: BEGIN, ROLLBACK, 500. *)
Example scenario_surrogate :
  create_test (Some (JObj sample_surrogate)) rid clock (at_rest [] no_faults) =
    (Returns (Response (Text (error_text (lit "Internal Error"))) 500
                (lit "application/json")),
     World [] None no_faults
       [Connected; Executed BEGIN; Executed ROLLBACK;
        Logged ERROR (internal_server_error rid UnicodeEncodeError); Closed]).
Proof. vm_compute. reflexivity. Qed.

Example scenario_blank_clinic :
  (get_tests (Some (lit " "))
     (at_rest [sample_row; blank_row; wider_blank_row; padded_row] no_faults)).1 =
    Returns (Response (Json (JArr [dict blank_row])) 200 (lit "application/json")).
Proof. vm_compute. reflexivity. Qed.

Example error_text_spelled :
  error_text (lit "Invalid Json")
  = lit "{" ++ [34] ++ lit "error" ++ [34] ++ lit ":" ++ [34]
    ++ lit "Invalid Json" ++ [34] ++ lit "}".
Proof. reflexivity. Qed.

(** ** Properties of the two handlers *)




(** C2. On a body that is a JSON object the five fields are examined in
    the order [test_id, patient_id, clinic_id, test_type, result]; the
    first one that is absent, not a string or blank after trimming is
    named, by the message the contract gives for it, in a 400 response,
    and the handler stops there: no row is persisted and storage is not
    touched. *)
Theorem create_test_names_first_invalid_field d pre f msg post req now w :
  field_messages = pre ++ (f, msg) :: post →
  (∀ g, g ∈ pre.*1 → ¬ invalid d g) →
  invalid d f →
  create_test (Some (JObj d)) req now w =
    (Returns (Response (Text (error_text msg)) 400 (lit "application/json")),
     note (Logged WARNING (validation_failed req msg)) w)
  ∧ tests (create_test (Some (JObj d)) req now w).2 = tests w
  ∧ storage_calls (journal (create_test (Some (JObj d)) req now w).2)
    = storage_calls (journal w).
Proof.
  intros Hfs Hpre Hf.
  assert (msg = complaint f) as ->.
  { apply field_message. rewrite Hfs. apply elem_of_app. right. left. }
  assert (validate_data (JObj d) = Returns (Some (complaint f))) as Hv.
  { unfold validate_data. rewrite fields_messages, Hfs, fmap_app, fmap_cons.
    apply validate_loop_first.
    - apply list.Forall_forall. intros g Hg. specialize (Hpre g Hg).
      rewrite <- blank_invalid in Hpre. by destruct (blank d g).
    - by apply blank_invalid. }
  rewrite (create_test_rejected _ _ req now w Hv (complaint_nonempty f)).
  rewrite error_response_text.
  split; [reflexivity|]. split; [reflexivity|]. apply storage_calls_logged.
Qed.

Lemma create_test_names_first_invalid_field_witness :
  create_test (Some (JObj sample_blank_patient)) rid clock
    (at_rest [sample_row] no_faults) =
    (Returns (Response
                (Text (error_text (lit "Invalid or missing field: patient_id")))
                400 (lit "application/json")),
     note (Logged WARNING
             (validation_failed rid (lit "Invalid or missing field: patient_id")))
       (at_rest [sample_row] no_faults))
  ∧ tests (create_test (Some (JObj sample_blank_patient)) rid clock
             (at_rest [sample_row] no_faults)).2 = [sample_row]
  ∧ storage_calls (journal (create_test (Some (JObj sample_blank_patient)) rid clock
                              (at_rest [sample_row] no_faults)).2)
    = storage_calls [].
Proof.
  apply (create_test_names_first_invalid_field sample_blank_patient
           [(lit "test_id", lit "Invalid or missing field: test_id")]
           (lit "patient_id") (lit "Invalid or missing field: patient_id")
           [(lit "clinic_id", lit "Invalid or missing field: clinic_id");
            (lit "test_type", lit "Invalid or missing field: test_type");
            (lit "result", lit "Invalid or missing field: result")]
           rid clock (at_rest [sample_row] no_faults)).
  - reflexivity.
  - intros g Hg Hbad. apply blank_invalid in Hbad.
    apply list_elem_of_singleton in Hg. subst g. vm_compute in Hbad. discriminate.
  - right; right. exists [32; 9; 160]. split; reflexivity.
Defined.

(** C3. When a create request is answered with 200, every later list
    query for the submitted [clinic_id] returns a record whose five
    client-supplied fields are the submitted values, unchanged (nothing is
    trimmed), next to the [created_at] the server assigned. *)
Theorem create_then_list data req now w resp w' :
  create_test (Some data) req now w = (Returns resp, w') →
  status_code resp = 200%Z →
  ∃ c, Py.getitem data (lit "clinic_id") = Returns (JStr c)
    ∧ ∀ w2, (∀ r, r ∈ tests w' → r ∈ tests w2) → can_query w2 →
        ∃ records o,
          (get_tests (Some c) w2).1 = Returns (json_response (JArr records))
          ∧ o ∈ records
          ∧ (∀ f, f ∈ fields → Py.getitem o f = Py.getitem data f)
          ∧ Py.getitem o (lit "created_at") = Returns (JStr now).
Proof.
  intros Hrun Hok.
  destruct (create_test_cases data req now w) as [(_ & _ & Hcode)|Hv].
  { rewrite Hrun in Hcode. rewrite (Hcode resp) in Hok; done. }
  destruct (accepted_200 data req now w resp w' Hv Hrun Hok) as (r0 & Hp0 & Htests).
  destruct (create_test_accepted data req now w Hv)
    as (d & t & p & c & ty & r & -> & Ht & Hp & Hc & Hty & Hr & Hne & _ & Hargs).
  destruct Hargs as [Hargs | Hargs]; rewrite Hargs in Hp0; [|done].
  injection Hp0 as <-.
  exists c. split; [by cbn; rewrite Hc|].
  intros w2 Hkept Hq. rewrite get_tests_healthy by eauto using strip_nonempty.
  eexists _, (dict (Row t p c ty r now)). split; [reflexivity|]. split; [|split].
  - apply list_elem_of_In, in_map, list_elem_of_In, matching_elem.
    split; [|done]. apply Hkept. rewrite Htests. apply elem_of_app. right. by left.
  - intros f Hf. fields_cases Hf; cbn; by rewrite ?Ht, ?Hp, ?Hc, ?Hty, ?Hr.
  - reflexivity.
Qed.

Lemma create_then_list_witness :
  ∃ c, Py.getitem (JObj sample) (lit "clinic_id") = Returns (JStr c)
    ∧ ∀ w2,
        (∀ r, r ∈ tests (create_test (Some (JObj sample)) rid clock
                           (at_rest [other_row] no_faults)).2 → r ∈ tests w2) →
        can_query w2 →
        ∃ records o,
          (get_tests (Some c) w2).1 = Returns (json_response (JArr records))
          ∧ o ∈ records
          ∧ (∀ f, f ∈ fields → Py.getitem o f = Py.getitem (JObj sample) f)
          ∧ Py.getitem o (lit "created_at") = Returns (JStr clock).
Proof.
  apply (create_then_list (JObj sample) rid clock (at_rest [other_row] no_faults)
           (json_response success)
           (create_test (Some (JObj sample)) rid clock
              (at_rest [other_row] no_faults)).2).
  - vm_compute. reflexivity.
  - reflexivity.
Defined.

(** C4. For a non-empty [clinic_id], with storage working, the list
    operation answers 200 with a JSON array holding, in the order of the
    table, one object for each stored record whose [clinic_id] equals the
    parameter code point for code point, and nothing else; each object
    has the six fields with the stored values. Without a match the array
    is empty and the status is still 200. *)
Theorem get_tests_by_clinic cid w :
  cid ≠ [] → can_query w →
  ∃ records,
    (get_tests (Some cid) w).1
      = Returns (Response (Json (JArr records)) 200 (lit "application/json"))
    ∧ Forall2 shows (filter (λ r, clinic_id r = cid) (tests w)) records
    ∧ ((∀ r, r ∈ tests w → clinic_id r ≠ cid) → records = []).
Proof.
  intros Hcid Hq. rewrite get_tests_healthy by done. cbn [fst].
  eexists. split; [reflexivity|]. split.
  - rewrite matching_filter. apply dicts_show.
  - intros Hnone. by rewrite matching_none.
Qed.

Lemma get_tests_by_clinic_witness :
  ∃ records,
    (get_tests (Some (lit "c1"))
       (at_rest [sample_row; other_row; padded_row] no_faults)).1
      = Returns (Response (Json (JArr records)) 200 (lit "application/json"))
    ∧ Forall2 shows
        (filter (λ r, clinic_id r = lit "c1")
           (tests (at_rest [sample_row; other_row; padded_row] no_faults)))
        records
    ∧ ((∀ r, r ∈ tests (at_rest [sample_row; other_row; padded_row] no_faults) →
             clinic_id r ≠ lit "c1") → records = []).
Proof.
  apply (get_tests_by_clinic (lit "c1")
           (at_rest [sample_row; other_row; padded_row] no_faults)).
  - done.
  - split; reflexivity.
Defined.

(** C5 (the code departs from it). A body that decodes to a number makes
    [validate_data] raise [TypeError] at [f not in data]; the call is
    outside every [try], so the exception leaves the handler and no
    response is built. *)
Theorem create_test_number_raises req now w :
  create_test (Some (JInt 5)) req now w = (Raises TypeError, w).
Proof. reflexivity. Qed.

(** C6, refuted as stated: with the variable set to the empty string the
    lookup returns that string and the start-up check raises. *)
Lemma DB_PATH_empty_string_raises :
  DB_PATH {[ lit "DATABASE_URL" := [] ]} = Raises RuntimeError
  ∧ ¬ (∀ environ : gmap pystr pystr, ∃ path, DB_PATH environ = Returns path).
Proof.
  split; [reflexivity|].
  intros H. destruct (H {[ lit "DATABASE_URL" := [] ]}) as [path Hp].
  vm_compute in Hp. discriminate.
Qed.

(** C6, amended. The start-up check cannot raise when the variable is
    unset (the default [records.db] is used) or set to a non-empty string
    (that string is used). *)
Theorem DB_PATH_defined (environ : gmap pystr pystr) :
  environ !! lit "DATABASE_URL" ≠ Some [] →
  DB_PATH environ
    = Returns (default (lit "records.db") (environ !! lit "DATABASE_URL")).
Proof.
  intros H. unfold DB_PATH, Py.getenv.
  destruct (environ !! lit "DATABASE_URL") as [[|c s]|]; done.
Qed.

Lemma DB_PATH_defined_witness :
  DB_PATH {[ lit "DATABASE_URL" := lit "prod.db" ]} =
    Returns (default (lit "records.db")
               (({[ lit "DATABASE_URL" := lit "prod.db" ]} : gmap pystr pystr)
                  !! lit "DATABASE_URL")).
Proof.
  apply (DB_PATH_defined {[ lit "DATABASE_URL" := lit "prod.db" ]}).
  vm_compute. discriminate.
Defined.

(** C7. A list request without [clinic_id], or with the empty string, is
    answered with 400 and [{"error":"clinic_id is required"}]; no
    connection is opened and no statement is executed. *)
Theorem get_tests_missing_clinic_id clinic_id w :
  clinic_id = None ∨ clinic_id = Some [] →
  get_tests clinic_id w =
    (Returns (error_response (lit "clinic_id is required") 400),
     note (Logged WARNING missing_clinic_id) w)
  ∧ storage_calls (journal (get_tests clinic_id w).2) = storage_calls (journal w)
  ∧ session (get_tests clinic_id w).2 = session w
  ∧ (get_tests clinic_id w).1
    = Returns (Response (Text (error_text (lit "clinic_id is required")))
                 400 (lit "application/json"))
  ∧ tests (get_tests clinic_id w).2 = tests w.
Proof.
  intros H.
  assert (get_tests clinic_id w =
    (Returns (error_response (lit "clinic_id is required") 400),
     note (Logged WARNING missing_clinic_id) w)) as ->
    by (by destruct H as [-> | ->]).
  split; [reflexivity|]. split; [apply storage_calls_logged|].
  split; [reflexivity|]. split; [|reflexivity].
  cbn [fst]. by rewrite error_response_text.
Qed.

Lemma get_tests_missing_clinic_id_witness :
  get_tests (Some []) (at_rest [sample_row] no_faults) =
    (Returns (error_response (lit "clinic_id is required") 400),
     note (Logged WARNING missing_clinic_id) (at_rest [sample_row] no_faults))
  ∧ storage_calls (journal (get_tests (Some []) (at_rest [sample_row] no_faults)).2)
    = storage_calls (journal (at_rest [sample_row] no_faults))
  ∧ session (get_tests (Some []) (at_rest [sample_row] no_faults)).2
    = session (at_rest [sample_row] no_faults)
  ∧ (get_tests (Some []) (at_rest [sample_row] no_faults)).1
    = Returns (Response (Text (error_text (lit "clinic_id is required")))
                 400 (lit "application/json"))
  ∧ tests (get_tests (Some []) (at_rest [sample_row] no_faults)).2
    = tests (at_rest [sample_row] no_faults).
Proof.
  apply (get_tests_missing_clinic_id (Some []) (at_rest [sample_row] no_faults)).
  right; reflexivity.
Defined.

(** C8. A body that cannot be decoded as JSON is answered with status
    400 and the text [{"error":"Invalid Json"}], whatever the state of the
    storage. The handler stops there: the table and the connection are
    as before, no storage call is made, and the one line it logs is the
    warning about the body, not a validation failure. No body that was
    decoded gets this answer. *)
Theorem create_test_invalid_json req now w :
  (create_test None req now w).1
    = Returns (Response (Text (error_text (lit "Invalid Json"))) 400
                 (lit "application/json"))
  ∧ tests (create_test None req now w).2 = tests w
  ∧ session (create_test None req now w).2 = session w
  ∧ storage_calls (journal (create_test None req now w).2)
    = storage_calls (journal w)
  ∧ log_lines (journal (create_test None req now w).2)
    = log_lines (journal w) ++ [Logged WARNING (invalid_json req)]
  ∧ ∀ data,
      (create_test (Some data) req now w).1
      ≠ Returns (Response (Text (error_text (lit "Invalid Json"))) 400
                   (lit "application/json")).
Proof.
  change (create_test None req now w)
    with (Returns (error_response (lit "Invalid Json") 400),
          note (Logged WARNING (invalid_json req)) w).
  cbn [fst snd]. rewrite error_response_text.
  split; [reflexivity|]. split; [reflexivity|]. split; [reflexivity|].
  split; [apply storage_calls_logged|]. split; [by count_log_lines|].
  intros data Heq.
  destruct (create_test_cases data req now w) as [(Hrej & _ & _)|Hv].
  - destruct (validate_data data) as [[msg|]|e] eqn:Hv; [|done|].
    + destruct (validate_loop_some _ _ _ Hv) as [f ->].
      rewrite (create_test_rejected _ _ req now w Hv (complaint_nonempty f)) in Heq.
      rewrite error_response_text in Heq. cbn [fst] in Heq.
      unfold error_text, complaint, lit in Heq. cbn in Heq. discriminate.
    + unfold create_test in Heq. unfold_monad. by rewrite Hv in Heq.
  - destruct (accepted_logs data req now w _ Hv Heq) as (_ & _ & _ & _ & Hne).
    by apply Hne.
Qed.

(** C9. A request that opens a connection closes it before the handler is
    left, on both endpoints and whatever storage does afterwards (commit,
    conflict, any failure, even a failing ROLLBACK): the connection, and
    with it any transaction, is gone, and what the handler did starts with
    the connect and ends with the close. *)
Theorem connection_released :
  (∀ data req now w,
     validate_data data = Returns None → on_connect (plan w) = false →
     session (create_test (Some data) req now w).2 = None
     ∧ bracketed (journal w) (journal (create_test (Some data) req now w).2))
  ∧ (∀ cid w,
     cid ≠ [] → on_connect (plan w) = false →
     session (get_tests (Some cid) w).2 = None
     ∧ bracketed (journal w) (journal (get_tests (Some cid) w).2)).
Proof.
  split.
  - intros data req now w Hv Hc. by apply accepted_releases.
  - apply get_tests_releases.
Qed.

Lemma connection_released_witness :
  (session (create_test (Some (JObj sample)) rid clock
              (at_rest [] commit_lost)).2 = None
   ∧ bracketed (journal (at_rest [] commit_lost))
       (journal (create_test (Some (JObj sample)) rid clock
                   (at_rest [] commit_lost)).2))
  ∧ (session (get_tests (Some (lit "c1")) (at_rest [sample_row] select_fails)).2 = None
     ∧ bracketed (journal (at_rest [sample_row] select_fails))
         (journal (get_tests (Some (lit "c1")) (at_rest [sample_row] select_fails)).2)).
Proof.
  destruct connection_released as [Hcreate Hlist]. split.
  - apply (Hcreate (JObj sample) rid clock (at_rest [] commit_lost)); reflexivity.
  - apply (Hlist (lit "c1") (at_rest [sample_row] select_fails)); [done | reflexivity].
Defined.

(** C10. A [clinic_id] made of white space only passes the guard of the
    list operation: the answer is never the 400 of the guard; the query
    runs and selects the stored records whose [clinic_id] is that very
    string, nothing being trimmed on either side. The same value in a
    create request is rejected by validation, which trims before it
    tests for emptiness. *)
Theorem get_tests_blank_clinic_id cid :
  cid ≠ [] → Py.strip cid = [] →
  (∀ w, can_query w →
     ∃ records,
       (get_tests (Some cid) w).1
         = Returns (Response (Json (JArr records)) 200 (lit "application/json"))
       ∧ Forall2 shows (filter (λ r, clinic_id r = cid) (tests w)) records
       ∧ journal (get_tests (Some cid) w).2
         = journal w ++ [Connected; Executed (SELECT cid);
                         Logged INFO (fetch_tests cid (length records)); Closed])
  ∧ (∀ w resp, (get_tests (Some cid) w).1 = Returns resp →
               status_code resp ≠ 400%Z)
  ∧ (∀ d req now w, d !! lit "clinic_id" = Some (JStr cid) →
     ∃ f msg, (f, msg) ∈ field_messages
       ∧ create_test (Some (JObj d)) req now w =
           (Returns (Response (Text (error_text msg)) 400 (lit "application/json")),
            note (Logged WARNING (validation_failed req msg)) w)).
Proof.
  intros Hne Hblank. split; [|split].
  - intros w Hq. rewrite get_tests_healthy by done. cbn [fst snd journal].
    eexists. split; [reflexivity|]. split.
    + rewrite matching_filter. apply dicts_show.
    + by rewrite length_map.
  - intros w resp. by apply get_tests_not_rejected.
  - intros d req now w Hd.
    destruct (validate_loop_dict d fields) as [Hpass | (f & Hf & Hv)].
    + apply validate_loop_pass in Hpass.
      assert (blank d (lit "clinic_id") = false) as Hb.
      { eapply list.Forall_forall in Hpass; [done|]. set_solver. }
      unfold blank in Hb. by rewrite Hd, Hblank in Hb.
    + exists f, (complaint f). split; [by apply field_has_message|].
      rewrite <- error_response_text.
      by apply create_test_rejected; [|apply complaint_nonempty].
Qed.

Lemma get_tests_blank_clinic_id_witness :
  (∃ records,
     (get_tests (Some (lit " "))
        (at_rest [sample_row; blank_row; wider_blank_row; padded_row] no_faults)).1
       = Returns (Response (Json (JArr records)) 200 (lit "application/json"))
     ∧ Forall2 shows
         (filter (λ r, clinic_id r = lit " ")
            (tests (at_rest [sample_row; blank_row; wider_blank_row; padded_row]
                      no_faults)))
         records
     ∧ journal (get_tests (Some (lit " "))
                  (at_rest [sample_row; blank_row; wider_blank_row; padded_row]
                     no_faults)).2
       = journal (at_rest [sample_row; blank_row; wider_blank_row; padded_row]
                    no_faults)
         ++ [Connected; Executed (SELECT (lit " "));
             Logged INFO (fetch_tests (lit " ") (length records)); Closed])
  ∧ ∃ f msg, (f, msg) ∈ field_messages
      ∧ create_test (Some (JObj sample_blank_clinic)) rid clock (at_rest [] no_faults) =
          (Returns (Response (Text (error_text msg)) 400 (lit "application/json")),
           note (Logged WARNING (validation_failed rid msg)) (at_rest [] no_faults)).
Proof.
  destruct (get_tests_blank_clinic_id (lit " ")) as (Hlist & _ & Hcreate).
  - done.
  - reflexivity.
  - split.
    + apply (Hlist (at_rest [sample_row; blank_row; wider_blank_row; padded_row]
                      no_faults)).
      split; reflexivity.
    + apply (Hcreate sample_blank_clinic rid clock (at_rest [] no_faults)).
      reflexivity.
Defined.

(** ** Further properties: validation *)

(** X1. [validate_data] accepts a body exactly when it is an object whose
    five required entries are all present, strings, and not blank. *)
Theorem validate_data_accepts data :
  validate_data data = Returns None
  ↔ ∃ d, data = JObj d ∧ ∀ f, f ∈ fields → ¬ invalid d f.
Proof.
  split.
  - intros H. destruct (validate_data_dict _ H) as [d ->]. exists d.
    split; [done|]. apply validate_loop_pass in H.
    intros f Hf Hbad. apply blank_invalid in Hbad.
    eapply list.Forall_forall in H; [|done]. congruence.
  - intros (d & -> & H). apply validate_loop_pass, list.Forall_forall.
    intros f Hf. specialize (H f Hf). rewrite <- blank_invalid in H.
    by destruct (blank d f).
Qed.

Lemma sample_fields_valid f : f ∈ fields → ¬ invalid sample f.
Proof.
  intros Hf Hbad. apply blank_invalid in Hbad.
  fields_cases Hf; vm_compute in Hbad; discriminate.
Qed.

Lemma validate_data_accepts_witness :
  validate_data (JObj sample) = Returns None.
Proof.
  apply (validate_data_accepts (JObj sample)).
  exists sample. split; [reflexivity | exact sample_fields_valid].
Defined.

(** X2. A string value passes the blank test of line 39 exactly when it
    has a code point that is not white space: on an object, the test of
    a field answers "fine" iff the entry is such a string. *)
Theorem field_accepted_iff d f :
  field_fails (JObj d) f = Returns false
  ↔ ∃ s, d !! f = Some (JStr s) ∧ ∃ c, c ∈ s ∧ Py.isspace c = false.
Proof.
  rewrite field_fails_dict. unfold blank. split.
  - destruct (d !! f) as [[]|] eqn:E; try done. intros [= H].
    exists s. split; [done|].
    destruct (forallb Py.isspace s) eqn:Hall.
    + apply strip_nil in Hall. by rewrite Hall in H.
    + apply forallb_false in Hall as (c & Hin & Hc). eauto.
  - intros (s & -> & c & Hin & Hc). f_equal.
    destruct (Py.strip s) eqn:E; [|done].
    apply strip_nil in E. rewrite forallb_forall in E.
    apply list_elem_of_In in Hin. rewrite (E c Hin) in Hc. done.
Qed.

Lemma field_accepted_iff_witness :
  field_fails (JObj sample) (lit "result") = Returns false.
Proof.
  apply (field_accepted_iff sample (lit "result")).
  exists (lit "positive"). split; [reflexivity|].
  exists 112. split; [left | reflexivity].
Defined.

(** X3. A body that is not an object never reaches storage: either
    [validate_data] raises [TypeError], which leaves the handler, or the
    answer is the 400 naming [test_id]; only the first field is looked
    at. The world is untouched, the log line of the 400 apart. *)
Theorem create_test_not_an_object data req now w :
  (∀ d, data ≠ JObj d) →
  (create_test (Some data) req now w = (Raises TypeError, w)
   ∨ create_test (Some data) req now w =
       (Returns (error_response (complaint (lit "test_id")) 400),
        note (Logged WARNING (validation_failed req (complaint (lit "test_id")))) w))
  ∧ error_response (complaint (lit "test_id")) 400
    = Response (Text (error_text (lit "Invalid or missing field: test_id")))
        400 (lit "application/json").
Proof.
  intros Hd. split; [|by rewrite error_response_text].
  assert (validate_data data = Raises TypeError
          ∨ validate_data data = Returns (Some (complaint (lit "test_id")))) as [Hv|Hv].
  { unfold validate_data, fields. rewrite validate_loop_cons.
    destruct (field_fails_other data (lit "test_id") Hd) as [-> | ->]; auto. }
  - left. unfold create_test. unfold_monad. by rewrite Hv.
  - right. by apply create_test_rejected.
Qed.

Lemma create_test_not_an_object_witness :
  (create_test (Some (JArr [JStr (lit "t1")])) rid clock (at_rest [] no_faults)
     = (Raises TypeError, at_rest [] no_faults)
   ∨ create_test (Some (JArr [JStr (lit "t1")])) rid clock (at_rest [] no_faults) =
       (Returns (error_response (complaint (lit "test_id")) 400),
        note (Logged WARNING (validation_failed rid (complaint (lit "test_id"))))
          (at_rest [] no_faults)))
  ∧ error_response (complaint (lit "test_id")) 400
    = Response (Text (error_text (lit "Invalid or missing field: test_id")))
        400 (lit "application/json").
Proof.
  apply (create_test_not_an_object (JArr [JStr (lit "t1")]) rid clock
           (at_rest [] no_faults)).
  intros d. discriminate.
Defined.

(** ** Further properties: the create path *)

(** X4. Only the five required entries of the body count: two bodies
    that agree on them are treated alike, whatever else they hold. A
    [created_at] sent by the client, for one, is ignored. *)
Theorem create_test_ignores_other_keys d d' req now w :
  agree d d' →
  create_test (Some (JObj d)) req now w = create_test (Some (JObj d')) req now w.
Proof.
  intros H. apply create_test_ext.
  - by apply validate_data_agree.
  - unfold parameters; cbn.
    by rewrite (H (lit "test_id")), (H (lit "patient_id")), (H (lit "clinic_id")),
      (H (lit "test_type")), (H (lit "result")) by set_solver.
  - cbn. by rewrite (H (lit "test_id")) by set_solver.
Qed.

Lemma create_test_ignores_other_keys_witness :
  create_test (Some (JObj sample)) rid clock (at_rest [] no_faults)
  = create_test (Some (JObj sample_with_extras)) rid clock (at_rest [] no_faults).
Proof.
  apply (create_test_ignores_other_keys sample sample_with_extras rid clock
           (at_rest [] no_faults)).
  intros f Hf. fields_cases Hf; reflexivity.
Defined.



(** X6. Whatever the request and whatever storage does, [create_test]
    changes the table only when it answers 200, and then by appending one
    row: one whose key was free and whose [created_at] is the server's
    time. Stored rows are never removed or altered. *)
Theorem create_test_all_or_nothing payload req now w :
  tests (create_test payload req now w).2 = tests w
  ∨ ∃ r, (create_test payload req now w).1 = Returns (json_response success)
       ∧ tests (create_test payload req now w).2 = tests w ++ [r]
       ∧ (∀ r0, r0 ∈ tests w → test_id r0 ≠ test_id r)
       ∧ created_at r = now.
Proof.
  destruct (create_test_effect payload req now w) as [|(r & Ho & Ht & Hk & Hn)];
    [by left|].
  right. exists r. repeat (split; [done|]). split; [|done].
  intros r0 Hin Heq.
  assert (Sqlite.has_key (test_id r) (tests w) = true) by (apply has_key_elem; eauto).
  congruence.
Qed.

(** X7. [create_test] keeps the primary key: when no two stored rows
    share a [test_id], none do afterwards, whatever the request and
    whatever storage does. *)
Theorem create_test_keeps_keys_unique payload req now w :
  unique_keys (tests w) →
  unique_keys (tests (create_test payload req now w).2).
Proof.
  intros Hu.
  destruct (create_test_effect payload req now w) as [->|(r & _ & -> & Hk & _)];
    [done|].
  unfold unique_keys in *. rewrite fmap_app. cbn.
  apply list.NoDup_app. split; [done|]. split; [|apply NoDup_singleton].
  intros k Hin Hk'. apply list_elem_of_singleton in Hk'. subst k.
  apply list_elem_of_fmap in Hin as (r0 & Heq & Hin).
  assert (Sqlite.has_key (test_id r) (tests w) = true) by (apply has_key_elem; eauto).
  congruence.
Qed.

Lemma create_test_keeps_keys_unique_witness :
  unique_keys (tests (create_test (Some (JObj sample)) rid clock
                        (at_rest [other_row] no_faults)).2).
Proof.
  apply (create_test_keeps_keys_unique (Some (JObj sample)) rid clock
           (at_rest [other_row] no_faults)).
  apply NoDup_singleton.
Defined.



(** X9. [sqlite3.connect] is called outside the [try] on both endpoints
    (lines 99 and 186): when it fails, the exception leaves the handler;
    no response is built, nothing is logged, nothing is touched. *)
Theorem connect_failure_escapes :
  (∀ data req now w,
     validate_data data = Returns None → on_connect (plan w) = true →
     create_test (Some data) req now w = (Raises OperationalError, w))
  ∧ (∀ cid w,
     cid ≠ [] → on_connect (plan w) = true →
     get_tests (Some cid) w = (Raises OperationalError, w)).
Proof.
  split.
  - intros data req now w Hv Hc.
    destruct (create_test_accepted data req now w Hv)
      as (d & t & p & c & ty & r & _ & _ & _ & _ & _ & _ & _ & -> & _).
    by apply store_test_connect_fails.
  - intros cid w Hcid Hc. unfold get_tests. destruct cid as [|a cid]; [done|].
    cbn [Py.truthy_opt Py.truthy negb default]. unfold_monad. by rewrite Hc.
Qed.

Lemma connect_failure_escapes_witness :
  create_test (Some (JObj sample)) rid clock (at_rest [] connect_refused)
    = (Raises OperationalError, at_rest [] connect_refused)
  ∧ get_tests (Some (lit "c1")) (at_rest [] connect_refused)
    = (Raises OperationalError, at_rest [] connect_refused).
Proof.
  destruct connect_failure_escapes as [Hcreate Hlist]. split.
  - apply (Hcreate (JObj sample) rid clock (at_rest [] connect_refused));
      reflexivity.
  - apply (Hlist (lit "c1") (at_rest [] connect_refused)); [done | reflexivity].
Defined.

(** X10. When BEGIN fails, the [except] clause runs ROLLBACK on a
    connection that has no transaction; that statement raises in its
    turn, inside the handler of the exception, so the error leaves
    [create_test] instead of becoming a 500. The [finally] still closes
    the connection; the table is unchanged and no line is logged. *)
Theorem create_test_begin_failure_escapes data req now w ends :
  validate_data data = Returns None →
  on_connect (plan w) = false → on_begin (plan w) = Failing ends →
  (create_test (Some data) req now w).1 = Raises OperationalError
  ∧ tests (create_test (Some data) req now w).2 = tests w
  ∧ session (create_test (Some data) req now w).2 = None
  ∧ storage_calls (journal (create_test (Some data) req now w).2)
    = storage_calls (journal w) ++ [Connected; Executed BEGIN; Executed ROLLBACK; Closed]
  ∧ log_lines (journal (create_test (Some data) req now w).2)
    = log_lines (journal w).
Proof.
  intros Hv Hc Hb.
  destruct (create_test_accepted data req now w Hv)
    as (d & t & p & c & ty & r & _ & _ & _ & _ & _ & _ & _ & -> & _).
  by eapply store_test_begin_fails.
Qed.

Lemma create_test_begin_failure_escapes_witness :
  (create_test (Some (JObj sample)) rid clock (at_rest [] begin_fails)).1
    = Raises OperationalError
  ∧ tests (create_test (Some (JObj sample)) rid clock (at_rest [] begin_fails)).2 = []
  ∧ session (create_test (Some (JObj sample)) rid clock (at_rest [] begin_fails)).2
    = None
  ∧ storage_calls (journal (create_test (Some (JObj sample)) rid clock
                              (at_rest [] begin_fails)).2)
    = storage_calls [] ++ [Connected; Executed BEGIN; Executed ROLLBACK; Closed]
  ∧ log_lines (journal (create_test (Some (JObj sample)) rid clock
                          (at_rest [] begin_fails)).2)
    = log_lines [].
Proof.
  apply (create_test_begin_failure_escapes (JObj sample) rid clock
           (at_rest [] begin_fails) false); reflexivity.
Defined.

(** X11. Every answer of [create_test] comes with exactly one log line,
    at the level of its status: INFO for 200, WARNING for 400, ERROR for
    409 and 500; no other status is ever returned. *)
Theorem create_test_logs_once payload req now w resp :
  (create_test payload req now w).1 = Returns resp →
  ∃ l e,
    log_lines (journal (create_test payload req now w).2)
      = log_lines (journal w) ++ [Logged l e]
    ∧ level_of (status_code resp) = Some l.
Proof.
  destruct payload as [data|].
  - destruct (validate_data data) as [[msg|]|e] eqn:Hv.
    + destruct (validate_loop_some _ _ _ Hv) as [f ->].
      rewrite (create_test_rejected _ _ req now w Hv (complaint_nonempty f)).
      intros [= <-]. eexists _, _. split; [count_log_lines; reflexivity | done].
    + intros H. destruct (accepted_logs _ _ _ _ _ Hv H) as (l & e & Hl & Hs & _).
      eauto.
    + unfold create_test. unfold_monad. by rewrite Hv.
  - unfold create_test. unfold_monad. intros [= <-]. eexists _, _.
    split; [count_log_lines; reflexivity | done].
Qed.

Lemma create_test_logs_once_witness :
  ∃ l e,
    log_lines (journal (create_test (Some (JObj sample)) rid clock
                          (at_rest [sample_row] no_faults)).2)
      = log_lines (journal (at_rest [sample_row] no_faults)) ++ [Logged l e]
    ∧ level_of (status_code (error_response (lit "Conflict: test_id exists") 409))
      = Some l.
Proof.
  apply (create_test_logs_once (Some (JObj sample)) rid clock
           (at_rest [sample_row] no_faults)).
  vm_compute. reflexivity.
Defined.

(** X12. A 400 on a decoded body names one of the five required fields
    and nothing else: the text of the answer is one of five fixed
    strings, and nothing of the request is copied into it. *)
Theorem create_test_400_names_a_field data req now w resp :
  (create_test (Some data) req now w).1 = Returns resp →
  status_code resp = 400%Z →
  (∃ f, f ∈ fields ∧ resp = error_response (complaint f) 400)
  ∧ (∃ f msg, (f, msg) ∈ field_messages
       ∧ resp = Response (Text (error_text msg)) 400 (lit "application/json")).
Proof.
  intros Hrun Hcode.
  assert (∃ f, f ∈ fields ∧ resp = error_response (complaint f) 400)
    as (f & Hf & ->).
  { destruct (validate_data data) as [[msg|]|e] eqn:Hv.
    - destruct (validate_loop_names _ _ _ Hv) as (f & Hf & ->).
      rewrite (create_test_rejected _ _ req now w Hv (complaint_nonempty f)) in Hrun.
      exists f. split; [done|]. cbn [fst] in Hrun. by simplify_eq.
    - by destruct (accepted_logs _ _ _ _ _ Hv Hrun) as (_ & _ & _ & _ & Hne).
    - unfold create_test in Hrun. unfold_monad. by rewrite Hv in Hrun. }
  split; [eauto|]. exists f, (complaint f).
  split; [by apply field_has_message | apply error_response_text].
Qed.

Lemma create_test_400_names_a_field_witness :
  (∃ f, f ∈ fields
     ∧ error_response (complaint (lit "patient_id")) 400
       = error_response (complaint f) 400)
  ∧ (∃ f msg, (f, msg) ∈ field_messages
       ∧ error_response (complaint (lit "patient_id")) 400
         = Response (Text (error_text msg)) 400 (lit "application/json")).
Proof.
  apply (create_test_400_names_a_field (JObj sample_no_patient) rid clock
           (at_rest [] no_faults)).
  - vm_compute. reflexivity.
  - reflexivity.
Defined.



(** X22. A body that passes validation but holds a value that cannot be
    encoded as UTF-8 (a lone surrogate) is refused when the tuple is
    bound: with the connect, BEGIN and ROLLBACK working the handler rolls
    back and answers 500 [{"error":"Internal Error"}]; the INSERT is not
    executed, the table is unchanged, and the ERROR line carries the
    [UnicodeEncodeError]. *)
Theorem create_test_unencodable d f s req now w :
  validate_data (JObj d) = Returns None →
  f ∈ fields → d !! f = Some (JStr s) → Py.encodable s = false →
  on_connect (plan w) = false → on_begin (plan w) = Healthy →
  on_rollback (plan w) = Healthy →
  create_test (Some (JObj d)) req now w =
    (Returns (Response (Text (error_text (lit "Internal Error"))) 500
                (lit "application/json")),
     World (tests w) None (plan w)
       (journal w ++ [Connected; Executed BEGIN; Executed ROLLBACK;
                      Logged ERROR (internal_server_error req UnicodeEncodeError);
                      Closed])).
Proof.
  intros Hv Hf Hs He Hc Hb Hr.
  destruct (create_test_accepted (JObj d) req now w Hv)
    as (d1 & t & p & c & ty & r & [= <-] & Ht & Hp & Hcl & Hty & Hres & _ & -> & _).
  destruct (parameters_cases d t p c ty r now Ht Hp Hcl Hty Hres)
    as [(_ & E1 & E2 & E3 & E4 & E5) | (-> & _)].
  - fields_cases Hf; simplify_eq; congruence.
  - rewrite <- error_response_text. by apply refused_healthy.
Qed.

Lemma create_test_unencodable_witness :
  create_test (Some (JObj sample_surrogate)) rid clock (at_rest [sample_row] no_faults) =
    (Returns (Response (Text (error_text (lit "Internal Error"))) 500
                (lit "application/json")),
     World (tests (at_rest [sample_row] no_faults)) None
       (plan (at_rest [sample_row] no_faults))
       (journal (at_rest [sample_row] no_faults)
          ++ [Connected; Executed BEGIN; Executed ROLLBACK;
              Logged ERROR (internal_server_error rid UnicodeEncodeError);
              Closed])).
Proof.
  apply (create_test_unencodable sample_surrogate (lit "patient_id") [55296]
           rid clock (at_rest [sample_row] no_faults));
    [vm_compute; reflexivity | | reflexivity..].
  unfold fields. right. left.
Defined.

(** ** Further properties: the list path *)

(** X14. [get_tests] only reads: whatever the parameter and whatever
    storage does, the table afterwards is the table before. *)
Theorem get_tests_read_only clinic_id w :
  tests (get_tests clinic_id w).2 = tests w.
Proof.
  unfold get_tests. destruct clinic_id as [[|a cid]|]; try reflexivity.
  cbn [Py.truthy_opt Py.truthy negb default]. unfold_monad. unfold Sqlite.run.
  split_plan w. destruct oc, os as [|[]]; reflexivity.
Qed.

(** X15. When the SELECT fails, the list operation answers 500 with the
    fixed text [{"error":"Internal server error"}], logs one ERROR line
    and closes the connection. *)
Theorem get_tests_internal_error cid w ends :
  cid ≠ [] → on_connect (plan w) = false → on_select (plan w) = Failing ends →
  (get_tests (Some cid) w).1
    = Returns (error_response (lit "Internal server error") 500)
  ∧ session (get_tests (Some cid) w).2 = None
  ∧ journal (get_tests (Some cid) w).2
    = journal w ++ [Connected; Executed (SELECT cid);
                    Logged ERROR (fetch_failed cid OperationalError); Closed]
  ∧ error_response (lit "Internal server error") 500
    = Response (Text (error_text (lit "Internal server error"))) 500
        (lit "application/json")
  ∧ tests (get_tests (Some cid) w).2 = tests w.
Proof.
  intros Hcid Hc Hs. unfold get_tests. destruct cid as [|a cid]; [done|].
  cbn [Py.truthy_opt Py.truthy negb default]. unfold_monad.
  pose proof (error_response_text (lit "Internal server error") 500) as Htext.
  split_plan w. subst.
  destruct ends; cbn; repeat (split; [reflexivity|]);
    (split; [by normalise_journal | split; [exact Htext | reflexivity]]).
Qed.

Lemma get_tests_internal_error_witness :
  (get_tests (Some (lit "c1")) (at_rest [sample_row] select_fails)).1
    = Returns (error_response (lit "Internal server error") 500)
  ∧ session (get_tests (Some (lit "c1")) (at_rest [sample_row] select_fails)).2 = None
  ∧ journal (get_tests (Some (lit "c1")) (at_rest [sample_row] select_fails)).2
    = journal (at_rest [sample_row] select_fails)
      ++ [Connected; Executed (SELECT (lit "c1"));
          Logged ERROR (fetch_failed (lit "c1") OperationalError); Closed]
  ∧ error_response (lit "Internal server error") 500
    = Response (Text (error_text (lit "Internal server error"))) 500
        (lit "application/json")
  ∧ tests (get_tests (Some (lit "c1")) (at_rest [sample_row] select_fails)).2
    = tests (at_rest [sample_row] select_fails).
Proof.
  apply (get_tests_internal_error (lit "c1") (at_rest [sample_row] select_fails) false);
    [done | reflexivity | reflexivity].
Defined.

(** X16. Every answer of [get_tests] comes with exactly one log line, at
    the level of its status: INFO for 200, WARNING for 400, ERROR for 500;
    and the count in the line of a 200 is the number of records
    returned. *)
Theorem get_tests_logs_once clinic_id w resp :
  (get_tests clinic_id w).1 = Returns resp →
  ∃ l e,
    log_lines (journal (get_tests clinic_id w).2)
      = log_lines (journal w) ++ [Logged l e]
    ∧ level_of (status_code resp) = Some l
    ∧ (status_code resp = 200%Z →
       ∃ cid records, clinic_id = Some cid
         ∧ body resp = Json (JArr records)
         ∧ e = fetch_tests cid (length records)).
Proof.
  assert (∀ l e w0, log_lines (journal (note (Logged l e) w0))
                    = log_lines (journal w0) ++ [Logged l e]) as Hnote.
  { intros. by count_log_lines. }
  unfold get_tests. destruct clinic_id as [[|a cid]|].
  - unfold_monad. cbn. intros [= <-]. eexists _, _.
    split; [apply Hnote|]. by split.
  - cbn [Py.truthy_opt Py.truthy negb default]. unfold_monad. unfold Sqlite.run.
    split_plan w. destruct oc, os as [|[]]; cbn; intros [= <-]; eexists _, _;
      (split; [count_log_lines; reflexivity|]); (split; [done|]); try done.
    intros _. eexists _, _. split; [done|]. split; [done|].
    by rewrite length_map.
  - unfold_monad. cbn. intros [= <-]. eexists _, _.
    split; [apply Hnote|]. by split.
Qed.

Lemma get_tests_logs_once_witness :
  ∃ l e,
    log_lines (journal (get_tests (Some (lit "c1"))
                          (at_rest [sample_row; other_row] no_faults)).2)
      = log_lines (journal (at_rest [sample_row; other_row] no_faults))
        ++ [Logged l e]
    ∧ level_of (status_code (json_response (JArr [dict sample_row]))) = Some l
    ∧ (status_code (json_response (JArr [dict sample_row])) = 200%Z →
       ∃ cid records, Some (lit "c1") = Some cid
         ∧ body (json_response (JArr [dict sample_row])) = Json (JArr records)
         ∧ e = fetch_tests cid (length records)).
Proof.
  apply (get_tests_logs_once (Some (lit "c1"))
           (at_rest [sample_row; other_row] no_faults)).
  vm_compute. reflexivity.
Defined.

(** ** Further properties: start-up *)



(** X18. On every path [initialise_db] leaves as many open connections
    as it found and never drops stored rows. When it raises, the table is
    as it was and "Database initialized" has not been logged; a failed
    CREATE still sees its connection closed. *)
Theorem initialise_db_safe fs db :
  Startup.connections (Startup.initialise_db fs db).2 = Startup.connections db
  ∧ (∀ rows, Startup.table db = Some rows →
             Startup.table (Startup.initialise_db fs db).2 = Some rows)
  ∧ (∀ e, (Startup.initialise_db fs db).1 = Raises e →
          Startup.table (Startup.initialise_db fs db).2 = Startup.table db
          ∧ (Startup.trace (Startup.initialise_db fs db).2 = Startup.trace db
             ∨ Startup.trace (Startup.initialise_db fs db).2
               = Startup.trace db
                 ++ [Startup.Opened; Startup.CreateTable; Startup.Shut])).
Proof.
  unfold Startup.initialise_db, Startup.create_and_log.
  destruct fs as [[] []], db as [tbl n tr]; cbn;
    (split; [reflexivity|]);
    (split; [by intros rows ->|]); intros e He; try done;
    (split; [reflexivity|]); [left | left | right]; try reflexivity.
  by rewrite <- !app_assoc.
Qed.

Lemma initialise_db_safe_witness :
  Startup.table (Startup.initialise_db (Startup.BootFaults false true)
                   (Startup.Database (Some [sample_row]) 0 [])).2
  = Some [sample_row].
Proof.
  destruct (initialise_db_safe (Startup.BootFaults false true)
              (Startup.Database (Some [sample_row]) 0 [])) as (_ & Hkept & _).
  apply Hkept. reflexivity.
Defined.



(** ** Further properties: when the handlers answer *)

(** X20. On a body that is a JSON object, [create_test] always answers
    with a response when the connect, BEGIN and ROLLBACK work and no
    failing INSERT or COMMIT has ended the transaction by itself: under
    these conditions no exception leaves the handler. *)
Theorem create_test_answers d req now w :
  on_connect (plan w) = false → on_begin (plan w) = Healthy →
  on_rollback (plan w) = Healthy →
  on_insert (plan w) ≠ Failing true → on_commit (plan w) ≠ Failing true →
  ∃ resp, (create_test (Some (JObj d)) req now w).1 = Returns resp.
Proof.
  intros Hc Hb Hr Hi Hcm.
  destruct (validate_loop_dict d fields) as [Hv | (f & _ & Hv)].
  - destruct (create_test_accepted (JObj d) req now w Hv)
      as (d1 & t & p & c & ty & r & _ & _ & _ & _ & _ & _ & _ & -> & [-> | ->]).
    + rewrite store_test_returns. by apply insert_test_answers.
    + rewrite refused_healthy by done. eauto.
  - rewrite (create_test_rejected _ _ req now w Hv (complaint_nonempty f)). eauto.
Qed.

Lemma create_test_answers_witness :
  ∃ resp,
    (create_test (Some (JObj sample)) rid clock (at_rest [] insert_fails)).1
    = Returns resp.
Proof.
  apply (create_test_answers sample rid clock (at_rest [] insert_fails));
    (reflexivity || discriminate).
Defined.

(** X21. [get_tests] always answers with a response once the connect
    has succeeded, whatever the parameter and whatever the SELECT does:
    its [except] clause holds no storage call that could fail. *)
Theorem get_tests_answers clinic_id w :
  on_connect (plan w) = false →
  ∃ resp, (get_tests clinic_id w).1 = Returns resp.
Proof.
  intros Hc. unfold get_tests. destruct clinic_id as [[|a cid]|];
    [unfold_monad; cbn; eauto | | unfold_monad; cbn; eauto].
  cbn [Py.truthy_opt Py.truthy negb default]. unfold_monad. unfold Sqlite.run.
  split_plan w. subst. destruct os as [|[]]; cbn; eauto.
Qed.

Lemma get_tests_answers_witness :
  ∃ resp, (get_tests (Some (lit "c1")) (at_rest [sample_row] select_fails)).1
          = Returns resp.
Proof.
  apply (get_tests_answers (Some (lit "c1")) (at_rest [sample_row] select_fails)).
  reflexivity.
Defined.
